(** * Simpler-Web-Crawler: worker-pool orchestration and text extraction

    A shallow embedding of
      - [app/main.py]                         (module [Main]),
      - [app/services/crawler_service.py]     (module [CrawlerService]),
      - [app/models/crawler_models.py] and
        [app/api/v1/endpoints/crawler_controller.py] (module [CrawlerController]),
      - [web-crawler.py], the single-file variant of the service
                                              (module [WebCrawler]).

    Every Python module keeps its own global names: [Main.executor] and
    [CrawlerService.executor] are different bindings, exactly as
    [from app.main import executor, manager, init_resources] makes them.

    Calls to [print] and to the logger return nothing and change none of
    the names modelled here; they are left out. *)

From Stdlib Require Import List String NArith Arith Bool Lia.
Import ListNotations.
Open Scope string_scope.
Open Scope nat_scope.
Open Scope list_scope.

Set Implicit Arguments.

(** ** Exceptions and the state-and-exception monad

    The model covers exceptions deriving from [Exception], the ones
    [except Exception] handles; [exn_str] is [str(e)]. *)

Record exn : Type := Exception { exn_str : string }.

Inductive outcome (A : Type) : Type :=
| Returned (a : A)
| Raised (e : exn).

Arguments Returned {A} a.
Arguments Raised {A} e.

(** A computation over the mutable state [S]: the state survives a raise,
    as assignments made before a Python exception do. *)
Definition M (S A : Type) : Type := S -> S * outcome A.

Definition ret {S A} (a : A) : M S A := fun s => (s, Returned a).

Definition raise {S A} (e : exn) : M S A := fun s => (s, Raised e).

Definition bind {S A B} (m : M S A) (k : A -> M S B) : M S B :=
  fun s => match m s with
           | (s', Returned a) => k a s'
           | (s', Raised e) => (s', Raised e)
           end.

(** [try: m  except Exception as e: h e] *)
Definition try_except {S A} (m : M S A) (h : exn -> M S A) : M S A :=
  fun s => match m s with
           | (s', Returned a) => (s', Returned a)
           | (s', Raised e) => h e s'
           end.

Definition get {S} : M S S := fun s => (s, Returned s).

Definition modify {S} (f : S -> S) : M S unit := fun s => (f s, Returned tt).

(** Runs a computation of an inner state inside a larger one. *)
Definition zoom {S T A} (proj : T -> S) (upd : S -> T -> T) (m : M S A) : M T A :=
  fun t => let (s', r) := m (proj t) in (upd s' t, r).

Declare Scope py_scope.
Delimit Scope py_scope with py.
Notation "x <- m ;; k" := (bind m (fun x => k))
  (at level 61, m at next level, right associativity) : py_scope.
Notation "m ;; k" := (bind m (fun _ => k))
  (at level 61, right associativity) : py_scope.
Open Scope py_scope.

(** ** Python strings and the parsed document

    Page text is inspected character by character, so it is a sequence of
    Unicode code points; [len] is [length].  Names, URLs and messages are
    never inspected and stay [string]s. *)

Definition str : Type := list N.

(** A literal. *)
Definition lit (s : string) : str :=
  map Ascii.N_of_ascii (list_ascii_of_string s).

Definition LF : N := 10%N.
Definition CR : N := 13%N.

(** The separator ["\n"]. *)
Definition newline : str := [LF].

(** The line boundaries of [str.splitlines]: \n \v \f \r, \x1c \x1d \x1e,
    \x85, U+2028, U+2029 (\r\n counts as one, see [splitlines]). *)
Definition is_linebreak (c : N) : bool :=
  ((10 <=? c) && (c <=? 13) || (28 <=? c) && (c <=? 30) || (c =? 133)
   || (c =? 8232) || (c =? 8233))%N.

(** [str.isspace] on one character, the characters [str.strip()] removes. *)
Definition isspace (c : N) : bool :=
  ((9 <=? c) && (c <=? 13) || (28 <=? c) && (c <=? 32) || (c =? 133)
   || (c =? 160) || (c =? 5760) || (8192 <=? c) && (c <=? 8202)
   || (c =? 8232) || (c =? 8233) || (c =? 8239) || (c =? 8287)
   || (c =? 12288))%N.

Fixpoint lstrip (s : str) : str :=
  match s with
  | c :: rest => if isspace c then lstrip rest else s
  | [] => []
  end.

Definition rstrip (s : str) : str := rev (lstrip (rev s)).

(** [s.strip()] *)
Definition strip (s : str) : str := rstrip (lstrip s).

(** [sep.join(parts)] *)
Fixpoint join (sep : str) (parts : list str) : str :=
  match parts with
  | [] => []
  | [p] => p
  | p :: rest => p ++ sep ++ join sep rest
  end.

(** [s.splitlines()]: the pieces between line boundaries, without them; a
    boundary at the very end opens no further line. *)
Fixpoint splitlines (s : str) : list str :=
  match s with
  | [] => []
  | c :: rest =>
      if is_linebreak c then
        [] :: match rest with
              | c' :: rest' =>
                  if ((c =? CR) && (c' =? LF))%N then splitlines rest'
                  else splitlines rest
              | [] => []
              end
      else
        match splitlines rest with
        | [] => [[c]]
        | line :: lines => (c :: line) :: lines
        end
  end.

(** A node of the BeautifulSoup tree.  [Comment] stands for the string
    classes [get_text] leaves out (comments, declarations, doctypes). *)
Unset Elimination Schemes.
Inductive PageElement : Type :=
| Tag (name : string) (contents : list PageElement)
| NavigableString (s : str)
| Comment (s : str).
Set Elimination Schemes.

(** [soup.find_all(name)]: the elements called [name], in document order.
    The soup is given by the contents of the document. *)
Fixpoint find_all_in (name : string) (e : PageElement) : list PageElement :=
  match e with
  | Tag n cs =>
      (if String.eqb n name then [e] else []) ++ flat_map (find_all_in name) cs
  | _ => []
  end.

Definition find_all (name : string) (soup : list PageElement) : list PageElement :=
  flat_map (find_all_in name) soup.

(** [for element in soup.find_all(name): element.decompose()]: every
    element called [name] leaves the tree with everything inside it. *)
Fixpoint decompose_in (name : string) (e : PageElement) : list PageElement :=
  match e with
  | Tag n cs =>
      if String.eqb n name then []
      else [Tag n (flat_map (decompose_in name) cs)]
  | _ => [e]
  end.

Definition decompose_all (name : string) (soup : list PageElement)
    : list PageElement :=
  flat_map (decompose_in name) soup.

(** [_all_strings(strip)]: the text strings below a node, in document
    order; with [strip], each is stripped and dropped when nothing is left. *)
Fixpoint all_strings_in (strip_each : bool) (e : PageElement) : list str :=
  match e with
  | Tag _ cs => flat_map (all_strings_in strip_each) cs
  | NavigableString s =>
      if strip_each then
        match strip s with
        | [] => []
        | s' => [s']
        end
      else [s]
  | Comment _ => []
  end.

Definition all_strings (strip_each : bool) (soup : list PageElement) : list str :=
  flat_map (all_strings_in strip_each) soup.

(** [soup.get_text(separator=sep, strip=strip_each)] *)
Definition get_text (sep : str) (strip_each : bool) (soup : list PageElement)
    : str :=
  join sep (all_strings strip_each soup).

(** ** Objects of the multiprocessing layer *)

(** [ProcessPoolExecutor(max_workers=..., mp_context=spawn [, max_tasks_per_child=1])];
    [pool_id] is the object's identity. *)
Record ProcessPoolExecutor : Type := {
  pool_id : nat;
  max_workers : nat;
  max_tasks_per_child : option nat
}.

(** [multiprocessing.Manager()], the shared-memory coordinator. *)
Record SyncManager : Type := { manager_id : nat }.

(** What the process does that an observer outside it can see. *)
Inductive Event : Type :=
| PoolConstructed (p : ProcessPoolExecutor)
| ManagerConstructed (m : SyncManager)
| ExecutorShutdown (p : ProcessPoolExecutor) (wait cancel_futures : bool)
| ManagerShutdown (m : SyncManager)
| ListAllocated (m : SyncManager) (list_id : nat)
| Dispatched (p : ProcessPoolExecutor) (start_urls allowed_domains : list string)
             (list_id : nat).

Definition is_dispatch (ev : Event) : bool :=
  match ev with Dispatched _ _ _ _ => true | _ => false end.

Definition is_shutdown (ev : Event) : bool :=
  match ev with
  | ExecutorShutdown _ _ _ | ManagerShutdown _ => true
  | _ => false
  end.

Definition is_construction (ev : Event) : bool :=
  match ev with
  | PoolConstructed _ | ManagerConstructed _ => true
  | _ => false
  end.

(** The host and what is installed on it: [multiprocessing.cpu_count()],
    [sys.version_info[:2]], and the lxml tree builder behind
    [BeautifulSoup(html_content, "lxml")]. *)
Record Host : Type := {
  cpu_count : nat;
  version_info : nat * nat;
  BeautifulSoup_lxml : str -> list PageElement
}.

(** [sys.version_info >= (3, 11)], a lexicographic tuple comparison. *)
Definition version_ge_3_11 (h : Host) : bool :=
  let (major, minor) := version_info h in
  (3 <? major) || ((major =? 3) && (11 <=? minor)).

(** What the two constructors called by [init_resources] do on this call:
    [None] when the constructor returns, [Some e] when it raises [e]. *)
Record InitEnv : Type := {
  ProcessPoolExecutor_raises : option exn;
  Manager_raises : option exn
}.

Definition is_None {A} (o : option A) : bool :=
  match o with None => true | Some _ => false end.

(** ** app/main.py *)

Module Main.

(** The module's globals [executor] and [manager], with the interpreter's
    supply of object identities and the events so far. *)
Record State : Type := {
  executor : option ProcessPoolExecutor;
  manager : option SyncManager;
  next_id : nat;
  events : list Event
}.

Definition set_executor (v : option ProcessPoolExecutor) : M State unit :=
  modify (fun s => {| executor := v; manager := manager s;
                      next_id := next_id s; events := events s |}).

Definition set_manager (v : option SyncManager) : M State unit :=
  modify (fun s => {| executor := executor s; manager := v;
                      next_id := next_id s; events := events s |}).

Definition fresh_id : M State nat :=
  fun s => ({| executor := executor s; manager := manager s;
               next_id := S (next_id s); events := events s |},
            Returned (next_id s)).

Definition emit (ev : Event) : M State unit :=
  modify (fun s => {| executor := executor s; manager := manager s;
                      next_id := next_id s; events := events s ++ [ev] |}).

(** [ProcessPoolExecutor(max_workers=n, mp_context=mp_context, ...)] *)
Definition new_ProcessPoolExecutor (env : InitEnv) (n : nat)
    (tasks_per_child : option nat) : M State ProcessPoolExecutor :=
  match ProcessPoolExecutor_raises env with
  | Some e => raise e
  | None =>
      i <- fresh_id ;;
      let p := {| pool_id := i; max_workers := n;
                  max_tasks_per_child := tasks_per_child |} in
      emit (PoolConstructed p) ;;
      ret p
  end.

(** [multiprocessing.Manager()] *)
Definition new_Manager (env : InitEnv) : M State SyncManager :=
  match Manager_raises env with
  | Some e => raise e
  | None =>
      i <- fresh_id ;;
      let m := {| manager_id := i |} in
      emit (ManagerConstructed m) ;;
      ret m
  end.

(** [MAX_WORKERS = multiprocessing.cpu_count()] *)
Definition MAX_WORKERS (h : Host) : nat := cpu_count h.

(** [init_resources()], lines 22-43.  The [except] clause prints and
    re-raises; it assigns nothing. *)
Definition init_resources (h : Host) (env : InitEnv) : M State unit :=
  s <- get ;;
  if negb (is_None (executor s)) && negb (is_None (manager s)) then
    ret tt
  else
    try_except
      ((if version_ge_3_11 h then
          p <- new_ProcessPoolExecutor env (MAX_WORKERS h) (Some 1) ;;
          set_executor (Some p)
        else
          p <- new_ProcessPoolExecutor env (MAX_WORKERS h) None ;;
          set_executor (Some p)) ;;
       m <- new_Manager env ;;
       set_manager (Some m))
      (fun e => raise e).

(** The state right after the module body has run. *)
Definition loaded : State :=
  {| executor := None; manager := None; next_id := 0; events := [] |}.

(** Both references set. *)
Definition both_live (s : State) : Prop :=
  executor s <> None /\ manager s <> None.

(** Exactly one of the two references set. *)
Definition partial (s : State) : Prop :=
  (executor s <> None /\ manager s = None) \/
  (executor s = None /\ manager s <> None).

(** Identities in use were handed out by the interpreter. *)
Definition ids_allocated (s : State) : Prop :=
  (forall p, executor s = Some p -> pool_id p < next_id s) /\
  (forall m, manager s = Some m -> manager_id m < next_id s).

End Main.

(** ** Jobs, results and the calls into the multiprocessing layer *)

(** The dict [{"url": ..., "html": ...}] appended by the spider. *)
Record PageResult : Type := { url : string; html : str }.

(** A scrapy response as [parse] reads it: [response.url], [response.text]. *)
Record Response : Type := { response_url : string; response_text : str }.

(** The shared list [manager.list()] hands to a job holds, at any time,
    the results appended so far. *)
Definition Sink : Type := list PageResult.

(** One run of the scrapy engine as the job sees it: whether
    [CrawlerProcess()] raises, the responses handed to [parse] in completion
    order, and whether [process.crawl] / [process.start] raises after them. *)
Record CrawlRun : Type := {
  CrawlerProcess_raises : option exn;
  responses : list Response;
  crawl_raises : option exn
}.

(** The Fetch Collaborator: what a run does for given start URLs and
    allowed domains. *)
Definition FetchCollaborator : Type := list string -> list string -> CrawlRun.

(** The dicts the services return: ["status"] always, ["message"] and
    ["results"] when the key is present. *)
Record dict : Type := {
  status : string;
  message : option string;
  results : option (list PageResult)
}.

(** What the environment does during one [/crawl] call. *)
Record SubmitEnv : Type := {
  init_env : InitEnv;
  list_raises : option exn;   (* manager.list() raises *)
  worker_fault : option exn;  (* the future fails in place of the job's own
                                 result: worker process died, pool broken *)
  scrapy : FetchCollaborator
}.

(** What the two shutdown calls of a refresh do. *)
Record ShutdownEnv : Type := {
  executor_shutdown_raises : option exn;
  manager_shutdown_raises : option exn
}.

(** [manager.list()]: a fresh, empty shared list. *)
Definition manager_list (raises : option exn) (m : SyncManager) : M Main.State nat :=
  match raises with
  | Some e => raise e
  | None =>
      i <- Main.fresh_id ;;
      Main.emit (ListAllocated m i) ;;
      ret i
  end.

(** [await loop.run_in_executor(executor, job, start_urls, allowed_domains,
    spider_results)]: the job runs in a worker over the fresh shared list;
    the awaited future gives what the job returns, or raises what it
    raised, or raises the executor's own fault. *)
Definition run_in_executor (fault : option exn) (p : ProcessPoolExecutor)
    (job : list string -> list string -> M Sink (list PageResult))
    (start_urls allowed_domains : list string) (spider_results : nat)
    : M Main.State (list PageResult) :=
  Main.emit (Dispatched p start_urls allowed_domains spider_results) ;;
  match fault with
  | Some e => raise e
  | None =>
      match job start_urls allowed_domains [] with
      | (_, Returned res) => ret res
      | (_, Raised e) => raise e
      end
  end.

(** [executor.shutdown(wait=..., cancel_futures=...)] *)
Definition executor_shutdown (raises : option exn) (p : ProcessPoolExecutor)
    (wait cancel_futures : bool) : M Main.State unit :=
  match raises with
  | Some e => raise e
  | None => Main.emit (ExecutorShutdown p wait cancel_futures)
  end.

(** [manager.shutdown()] *)
Definition manager_shutdown (raises : option exn) (m : SyncManager)
    : M Main.State unit :=
  match raises with
  | Some e => raise e
  | None => Main.emit (ManagerShutdown m)
  end.

(** ** app/services/crawler_service.py *)

Module CrawlerService.

(** [from app.main import executor, manager, init_resources] gives this
    module names [executor] and [manager] of its own.  [init_resources]
    keeps assigning the globals of [app.main]. *)
Record State : Type := {
  main : Main.State;
  executor : option ProcessPoolExecutor;
  manager : option SyncManager
}.

(** The import statement, run when the module is first loaded: the two
    names are bound to the values [app.main] holds at that moment. *)
Definition import (m : Main.State) : State :=
  {| main := m; executor := Main.executor m; manager := Main.manager m |}.

Definition in_main {A} (c : M Main.State A) : M State A :=
  zoom main
    (fun m s => {| main := m; executor := executor s; manager := manager s |})
    c.

Definition init_resources (h : Host) (env : InitEnv) : M State unit :=
  in_main (Main.init_resources h env).

(** [global executor, manager] followed by an assignment. *)
Definition set_executor (v : option ProcessPoolExecutor) : M State unit :=
  modify (fun s => {| main := main s; executor := v; manager := manager s |}).

Definition set_manager (v : option SyncManager) : M State unit :=
  modify (fun s => {| main := main s; executor := executor s; manager := v |}).

Definition unwanted_tags : list string :=
  ["script"; "style"; "nav"; "footer"; "aside"; "form"; "s"; "a"].

(** [extract_important_text_bs4(html_content)], lines 14-23. *)
Definition extract_important_text_bs4 (h : Host) (html_content : str) : str :=
  let soup := BeautifulSoup_lxml h html_content in
  let soup :=
    fold_left (fun soup tag => decompose_all tag soup) unwanted_tags soup in
  let text := get_text newline true soup in
  let lines := filter (fun line => 30 <? List.length line) (splitlines text) in
  join newline lines.

(** [HTMLSpider.parse(response)], lines 49-58: appends to [self.results]
    and yields the item. *)
Definition parse (h : Host) (response : Response) : M Sink PageResult :=
  let important_text := extract_important_text_bs4 h (response_text response) in
  let item := {| url := response_url response; html := important_text |} in
  modify (fun results => results ++ [item]) ;;
  ret item.

(** The engine calls [parse] on each response of the run. *)
Fixpoint parse_each (h : Host) (rs : list Response) : M Sink unit :=
  match rs with
  | [] => ret tt
  | r :: rest => parse h r ;; parse_each h rest
  end.

(** [process.crawl(HTMLSpider, ...)] and [process.start(stop_after_crawl=True)]. *)
Definition crawl_and_start (h : Host) (run : CrawlRun) : M Sink unit :=
  parse_each h (responses run) ;;
  match crawl_raises run with
  | Some e => raise e
  | None => ret tt
  end.

(** [run_crawler_process(start_urls, allowed_domains, spider_results)],
    lines 60-73; [CrawlerProcess()] is called before the [try]. *)
Definition run_crawler_process (h : Host) (fetch : FetchCollaborator)
    (start_urls allowed_domains : list string) : M Sink (list PageResult) :=
  let run := fetch start_urls allowed_domains in
  match CrawlerProcess_raises run with
  | Some e => raise e
  | None =>
      try_except
        (crawl_and_start h run ;;
         spider_results <- get ;;
         ret spider_results)
        (fun e => ret [])
  end.

Definition not_initialized : dict :=
  {| status := "error";
     message := Some "Server resources are not initialized. Please ensure the server started correctly.";
     results := Some [] |}.

Definition finished (res : list PageResult) : dict :=
  {| status := "finished"; message := None; results := Some res |}.

Definition crawl_failed (e : exn) : dict :=
  {| status := "error";
     message := Some ("Crawl execution failed: " ++ exn_str e)%string;
     results := Some [] |}.

(** Lines 82-103 of [crawl_service], reached with both names set: the
    shared list is allocated before the [try]; the dispatch, the logging of
    the count and of up to three URLs, and the [return] are inside it. *)
Definition submit (h : Host) (env : SubmitEnv) (p : ProcessPoolExecutor)
    (m : SyncManager) (start_urls allowed_domains : list string) : M State dict :=
  spider_results <- in_main (manager_list (list_raises env) m) ;;
  try_except
    (res <- in_main (run_in_executor (worker_fault env) p
                       (run_crawler_process h (scrapy env))
                       start_urls allowed_domains spider_results) ;;
     ret (finished res))
    (fun e => ret (crawl_failed e)).

(** [crawl_service(start_urls, allowed_domains)], lines 75-103.
    [executor is None or manager is None] reads this module's names. *)
Definition crawl_service (h : Host) (env : SubmitEnv)
    (start_urls allowed_domains : list string) : M State dict :=
  s <- get ;;
  match executor s, manager s with
  | Some p, Some m => submit h env p m start_urls allowed_domains
  | _, _ =>
      init_resources h (init_env env) ;;
      s <- get ;;
      match executor s, manager s with
      | Some p, Some m => submit h env p m start_urls allowed_domains
      | _, _ => ret not_initialized
      end
  end.

Definition refreshed : dict :=
  {| status := "refreshed_and_restarted";
     message := Some "Worker pools have been terminated and new pools are ready for immediate use.";
     results := None |}.

Definition refresh_failed (e : exn) : dict :=
  {| status := "error";
     message := Some ("Failed to re-initialize resources: " ++ exn_str e)%string;
     results := None |}.

(** [refresh_resources_service()], lines 105-133. *)
Definition refresh_resources_service (h : Host) (senv : ShutdownEnv)
    (ienv : InitEnv) : M State dict :=
  try_except
    (s <- get ;;
     match executor s with
     | Some p =>
         in_main (executor_shutdown (executor_shutdown_raises senv) p false true)
     | None => ret tt
     end)
    (fun e => ret tt) ;;
  try_except
    (s <- get ;;
     match manager s with
     | Some m => in_main (manager_shutdown (manager_shutdown_raises senv) m)
     | None => ret tt
     end)
    (fun e => ret tt) ;;
  set_executor None ;;
  set_manager None ;;
  try_except
    (init_resources h ienv ;;
     ret refreshed)
    (fun e => ret (refresh_failed e)).

End CrawlerService.

(** ** app/models/crawler_models.py *)

Module CrawlerModels.

Record CrawlRequest : Type := {
  start_urls : list string;
  allowed_domains : list string
}.

Record CrawlResult : Type := { url : string; html : str }.

(** [class CrawlResponse(BaseModel)]: [status] and [results], nothing else. *)
Record CrawlResponse : Type := {
  status : string;
  results : list CrawlResult
}.

Definition CrawlResult_of (r : PageResult) : CrawlResult :=
  let (u, t) := r in {| url := u; html := t |}.

Definition PageResult_of (r : CrawlResult) : PageResult :=
  Build_PageResult (url r) (html r).

(** Validation of a returned dict against the model: the fields of the
    model are read, every other key is ignored; a dict without
    ["results"] is rejected. *)
Definition validate (d : dict) : outcome CrawlResponse :=
  match d with
  | Build_dict st _ (Some rs) =>
      Returned {| status := st; results := map CrawlResult_of rs |}
  | Build_dict _ _ None =>
      Raised (Exception "ResponseValidationError: results: Field required")
  end.

(** The JSON object sent for a validated model: its fields, and no
    ["message"] key since the model has no such field. *)
Definition dump (r : CrawlResponse) : dict :=
  Build_dict (status r) None (Some (map PageResult_of (results r))).

End CrawlerModels.

(** ** app/api/v1/endpoints/crawler_controller.py *)

Module CrawlerController.

(** [crawl_endpoint(request)], lines 8-14. *)
Definition crawl_endpoint (h : Host) (env : SubmitEnv)
    (request : CrawlerModels.CrawlRequest) : M CrawlerService.State dict :=
  res <- CrawlerService.crawl_service h env
           (CrawlerModels.start_urls request)
           (CrawlerModels.allowed_domains request) ;;
  ret res.

(** [@router.post("/crawl", response_model=CrawlResponse)]: what the
    endpoint returns is validated against the model and the model is
    what goes out. *)
Definition post_crawl (h : Host) (env : SubmitEnv)
    (request : CrawlerModels.CrawlRequest) : M CrawlerService.State dict :=
  res <- crawl_endpoint h env request ;;
  match CrawlerModels.validate res with
  | Returned r => ret (CrawlerModels.dump r)
  | Raised e => raise e
  end.

End CrawlerController.

(** ** web-crawler.py, the service in one file *)

Module WebCrawler.

(** The file has its own globals [executor] and [manager], of the shape
    of those of [app/main.py], and its own copy of [init_resources]
    (lines 27-50), line for line the one of [app/main.py]. *)
Definition State : Type := Main.State.

Definition init_resources : Host -> InitEnv -> M State unit :=
  Main.init_resources.

(** [run_crawler] (lines 118-134) is [run_crawler_process] under another
    name, with the same spider and the same extraction (lines 64-111). *)
Definition run_crawler
    : Host -> FetchCollaborator -> list string -> list string ->
      M Sink (list PageResult) :=
  CrawlerService.run_crawler_process.

(** A JSON object as the clients check.py and check2.py send it: each of
    the two keys is present or not, and a key that is present holds a list
    of strings. *)
Record JsonBody : Type := {
  body_start_urls : option (list string);
  body_allowed_domains : option (list string)
}.

(** The JSON values that are not objects, by the Python type they parse
    to. *)
Inductive NonObject : Type :=
| JsonList | JsonStr | JsonInt | JsonFloat | JsonBool | JsonNull.

Definition type_name (kind : NonObject) : string :=
  match kind with
  | JsonList => "list"
  | JsonStr => "str"
  | JsonInt => "int"
  | JsonFloat => "float"
  | JsonBool => "bool"
  | JsonNull => "NoneType"
  end.

(** What [request.json()] parses a valid body to. *)
Inductive Json : Type :=
| JsonObject (body : JsonBody)
| JsonOther (kind : NonObject).

(** [await request.json()] returns the parsed body or raises. *)
Record Request : Type := { json : outcome Json }.

Definition get_or_empty (v : option (list string)) : list string :=
  match v with Some l => l | None => [] end.

(** [data.get(key, [])], lines 223-224: only a dict has [get]; on any
    other value the attribute lookup raises [AttributeError]. *)
Definition data_get (data : Json) (key : JsonBody -> option (list string))
    : M State (list string) :=
  match data with
  | JsonObject body => ret (get_or_empty (key body))
  | JsonOther kind =>
      raise (Exception ("'" ++ type_name kind ++ "' object has no attribute 'get'")%string)
  end.

Definition error (msg : string) : dict :=
  {| status := "error"; message := Some msg; results := None |}.

(** [crawl(request)], lines 202-256. *)
Definition crawl (h : Host) (env : SubmitEnv) (request : Request)
    : M State dict :=
  s <- get ;;
  (if is_None (Main.executor s) || is_None (Main.manager s) then
     init_resources h (init_env env)
   else ret tt) ;;
  s <- get ;;
  match Main.executor s, Main.manager s with
  | Some p, Some m =>
      match json request with
      | Raised e => ret (error ("Invalid JSON payload: " ++ exn_str e)%string)
      | Returned data =>
          start_urls <- data_get data body_start_urls ;;
          allowed_domains <- data_get data body_allowed_domains ;;
          match start_urls with
          | [] => ret (error "start_urls must be provided.")
          | _ :: _ =>
              spider_results <- manager_list (list_raises env) m ;;
              try_except
                (res <- run_in_executor (worker_fault env) p
                          (run_crawler h (scrapy env))
                          start_urls allowed_domains spider_results ;;
                 ret {| status := "finished"; message := None;
                        results := Some res |})
                (fun e =>
                   ret (error ("Crawl execution failed: " ++ exn_str e)%string))
          end
      end
  | _, _ =>
      ret (error "Server resources are not initialized. Please ensure the server started correctly.")
  end.

(** [refresh_resources()], lines 164-199. *)
Definition refresh_resources (h : Host) (senv : ShutdownEnv) (ienv : InitEnv)
    : M State dict :=
  try_except
    (s <- get ;;
     match Main.executor s with
     | Some p => executor_shutdown (executor_shutdown_raises senv) p false true
     | None => ret tt
     end)
    (fun e => ret tt) ;;
  try_except
    (s <- get ;;
     match Main.manager s with
     | Some m => manager_shutdown (manager_shutdown_raises senv) m
     | None => ret tt
     end)
    (fun e => ret tt) ;;
  Main.set_executor None ;;
  Main.set_manager None ;;
  try_except
    (init_resources h ienv ;;
     ret {| status := "refreshed_and_restarted";
            message := Some "Worker pools have been terminated and new pools are ready for immediate use.";
            results := None |})
    (fun e =>
       ret (error ("Failed to re-initialize resources: " ++ exn_str e)%string)).

End WebCrawler.

(** ** Auxiliary definitions used in the statements *)

Unset Implicit Arguments.

(** The pool [init_resources] builds on host [h] with identity [i]. *)
Definition pool_built (h : Host) (i : nat) : ProcessPoolExecutor :=
  {| pool_id := i;
     max_workers := cpu_count h;
     max_tasks_per_child := if version_ge_3_11 h then Some 1 else None |}.

(** Concrete inputs used to exercise the statements. *)
Definition example_soup : list PageElement :=
  [Tag "html"
     [Tag "head"
        [Tag "script"
           [NavigableString (lit "var tracking = 'abcdefghijklmnopqrstuvwxyz0123456789';")]];
      Tag "body"
        [Tag "p" [NavigableString (lit "This paragraph has exactly forty chars!!")];
         Tag "p" [NavigableString (lit "short text")]]]].

Definition example_html : str :=
  lit "<html><head><script>var tracking = 'abcdefghijklmnopqrstuvwxyz0123456789';</script></head><body><p>This paragraph has exactly forty chars!!</p><p>short text</p></body></html>".

Definition example_host : Host :=
  {| cpu_count := 4; version_info := (3, 12);
     BeautifulSoup_lxml := fun _ => example_soup |}.

Definition constructors_return : InitEnv :=
  {| ProcessPoolExecutor_raises := None; Manager_raises := None |}.

Definition manager_construction_fails : InitEnv :=
  {| ProcessPoolExecutor_raises := None;
     Manager_raises := Some (Exception "OSError: [Errno 24] Too many open files") |}.

(** [app.main] after a successful start-up. *)
Definition started : Main.State :=
  fst (Main.init_resources example_host constructors_return Main.loaded).

(** [app.main] after a start-up in which [Manager()] raised. *)
Definition half_started : Main.State :=
  fst (Main.init_resources example_host manager_construction_fails Main.loaded).

(** The item [parse] builds for a response. *)
Definition page_result (h : Host) (response : Response) : PageResult :=
  {| url := response_url response;
     html := CrawlerService.extract_important_text_bs4 h (response_text response) |}.

(** The state of the service module once a job has been handed to the
    pool: a list identity is used up and two events are added. *)
Definition after_dispatch (s : CrawlerService.State) (p : ProcessPoolExecutor)
    (m : SyncManager) (start_urls allowed_domains : list string)
    : CrawlerService.State :=
  let ms := CrawlerService.main s in
  {| CrawlerService.main :=
       {| Main.executor := Main.executor ms;
          Main.manager := Main.manager ms;
          Main.next_id := S (Main.next_id ms);
          Main.events :=
            (Main.events ms ++ [ListAllocated m (Main.next_id ms)])
              ++ [Dispatched p start_urls allowed_domains (Main.next_id ms)] |};
     CrawlerService.executor := CrawlerService.executor s;
     CrawlerService.manager := CrawlerService.manager s |}.

(** What the awaited future gives for a dispatched job. *)
Definition awaited (h : Host) (env : SubmitEnv)
    (start_urls allowed_domains : list string) : outcome (list PageResult) :=
  match worker_fault env with
  | Some e => Raised e
  | None =>
      snd (CrawlerService.run_crawler_process h (scrapy env)
             start_urls allowed_domains [])
  end.

(** The events that hand a job to a worker. *)
Definition dispatches (s : CrawlerService.State) : list Event :=
  filter is_dispatch (Main.events (CrawlerService.main s)).

(** A response, a run that fails after parsing it, a run that completes. *)
Definition example_response : Response :=
  {| response_url := "http://example.test/a"; response_text := example_html |}.

Definition fetch_raises : FetchCollaborator :=
  fun _ _ =>
    {| CrawlerProcess_raises := None;
       responses := [example_response];
       crawl_raises := Some (Exception "ReactorNotRestartable") |}.

Definition fetch_completes : FetchCollaborator :=
  fun _ _ =>
    {| CrawlerProcess_raises := None;
       responses := [example_response];
       crawl_raises := None |}.

(** A run whose [CrawlerProcess()] raises. *)
Definition fetch_construction_raises : FetchCollaborator :=
  fun _ _ =>
    {| CrawlerProcess_raises :=
         Some (Exception "AttributeError: module 'lib' has no attribute 'X509_V_FLAG_CB_ISSUER_CHECK'");
       responses := [];
       crawl_raises := None |}.

Definition job_construction_fails : SubmitEnv :=
  {| init_env := constructors_return; list_raises := None;
     worker_fault := None; scrapy := fetch_construction_raises |}.

Definition job_completes : SubmitEnv :=
  {| init_env := constructors_return; list_raises := None;
     worker_fault := None; scrapy := fetch_completes |}.

Definition worker_dies : SubmitEnv :=
  {| init_env := constructors_return; list_raises := None;
     worker_fault := Some (Exception "A process in the process pool was terminated abruptly while the future was running or pending.");
     scrapy := fetch_completes |}.

Definition shutdowns_return : ShutdownEnv :=
  {| executor_shutdown_raises := None; manager_shutdown_raises := None |}.

(** The service module loaded after start-up, its names bound to the live
    pool and coordinator; and loaded before start-up, its names bound to
    [None] for good. *)
Definition service_live : CrawlerService.State := CrawlerService.import started.

Definition service_unset : CrawlerService.State :=
  {| CrawlerService.main := started;
     CrawlerService.executor := None;
     CrawlerService.manager := None |}.

(** A dict with its ["message"] key removed. *)
Definition without_message (d : dict) : dict :=
  {| status := status d; message := None; results := results d |}.

(** Induction on a document tree, with the hypothesis for every child. *)
Fixpoint PageElement_tree_ind (P : PageElement -> Prop)
    (HTag : forall name contents, Forall P contents -> P (Tag name contents))
    (HStr : forall s, P (NavigableString s))
    (HCom : forall s, P (Comment s))
    (e : PageElement) {struct e} : P e :=
  match e with
  | Tag name contents =>
      HTag name contents
        ((fix all (l : list PageElement) : Forall P l :=
            match l with
            | [] => Forall_nil P
            | x :: t => Forall_cons x (PageElement_tree_ind P HTag HStr HCom x) (all t)
            end) contents)
  | NavigableString s => HStr s
  | Comment s => HCom s
  end.

(** Removal of every element whose name is in [names], in one pass. *)
Fixpoint prune_in (names : list string) (e : PageElement) : list PageElement :=
  match e with
  | Tag n cs =>
      if existsb (String.eqb n) names then []
      else [Tag n (flat_map (prune_in names) cs)]
  | _ => [e]
  end.

Definition prune (names : list string) (soup : list PageElement)
    : list PageElement :=
  flat_map (prune_in names) soup.

(** The text strings of a document that are not inside an element whose
    name is in [names], each stripped, the empty ones left out. *)
Fixpoint strings_outside_in (names : list string) (e : PageElement) : list str :=
  match e with
  | Tag n cs =>
      if existsb (String.eqb n) names then []
      else flat_map (strings_outside_in names) cs
  | NavigableString s =>
      match strip s with
      | [] => []
      | s' => [s']
      end
  | Comment _ => []
  end.

(** The claim's words: the visible text is what is left once all content
    inside script, style, nav, footer, aside, form, s and a elements is
    removed. *)
Definition visible_strings (soup : list PageElement) : list str :=
  flat_map
    (strings_outside_in
       ["script"; "style"; "nav"; "footer"; "aside"; "form"; "s"; "a"])
    soup.

(** The lines of the visible text. *)
Definition visible_lines (soup : list PageElement) : list str :=
  splitlines (join newline (visible_strings soup)).

(** A string without line boundary. *)
Definition no_linebreak (line : str) : Prop :=
  forallb (fun c => negb (is_linebreak c)) line = true.

(** ** The rest of the code *)

(** *** app/main.py, [lifespan] (lines 45-65); web-crawler.py has the same
    function at lines 137-159.  [lifespan_startup] is the part before the
    [yield], [lifespan_shutdown] the part after it. *)

Definition lifespan_startup (h : Host) (env : InitEnv) : M Main.State unit :=
  Main.init_resources h env.

Definition lifespan_shutdown (senv : ShutdownEnv) : M Main.State unit :=
  s <- get ;;
  match Main.executor s with
  | Some p => executor_shutdown (executor_shutdown_raises senv) p true false
  | None => ret tt
  end ;;
  s <- get ;;
  match Main.manager s with
  | Some m => manager_shutdown (manager_shutdown_raises senv) m
  | None => ret tt
  end.

(** *** app/models/crawler_models.py, [RefreshResourcesResponse], and
    app/api/v1/endpoints/crawler_controller.py, [refresh_resources_endpoint] *)

Module RefreshEndpoint.

(** [class RefreshResourcesResponse(BaseModel)]: [status] and [message]. *)
Record RefreshResourcesResponse : Type := {
  status : string;
  message : string
}.

(** Validation of a returned dict against the model: a dict without
    ["message"] is rejected, any other key is ignored. *)
Definition validate (d : dict) : outcome RefreshResourcesResponse :=
  match d with
  | Build_dict st (Some msg) _ => Returned {| status := st; message := msg |}
  | Build_dict _ None _ =>
      Raised (Exception "ResponseValidationError: message: Field required")
  end.

(** The JSON object sent for a validated model. *)
Definition dump (r : RefreshResourcesResponse) : dict :=
  Build_dict (status r) (Some (message r)) None.

(** [refresh_resources_endpoint()], lines 16-23. *)
Definition refresh_resources_endpoint (h : Host) (senv : ShutdownEnv)
    (ienv : InitEnv) : M CrawlerService.State dict :=
  response <- CrawlerService.refresh_resources_service h senv ienv ;;
  ret response.

(** [@router.post("/refresh_resources", response_model=RefreshResourcesResponse)] *)
Definition post_refresh_resources (h : Host) (senv : ShutdownEnv)
    (ienv : InitEnv) : M CrawlerService.State dict :=
  response <- refresh_resources_endpoint h senv ienv ;;
  match validate response with
  | Returned r => ret (dump r)
  | Raised e => raise e
  end.

End RefreshEndpoint.

(** *** Requests served one after the other

    The frontend keeps serving after a handler raised: the module state a
    call leaves behind is the state the next call starts from. *)

Inductive ServiceCall : Type :=
| CallCrawl (env : SubmitEnv) (request : CrawlerModels.CrawlRequest)
| CallRefresh (senv : ShutdownEnv) (ienv : InitEnv).

Definition serve (h : Host) (s : CrawlerService.State) (c : ServiceCall)
    : CrawlerService.State :=
  match c with
  | CallCrawl env request => fst (CrawlerController.post_crawl h env request s)
  | CallRefresh senv ienv =>
      fst (RefreshEndpoint.post_refresh_resources h senv ienv s)
  end.

Definition serve_all (h : Host) (calls : list ServiceCall)
    (s : CrawlerService.State) : CrawlerService.State :=
  fold_left (serve h) calls s.

(** *** check2.py, [test_crawl_endpoint] (lines 18-74): what the script
    reports for a response. *)

(** [first_html_snippet[:max_length] + ("..." if len(first_html_snippet) >
    max_length else "")] with [max_length = 500], lines 54-55. *)
Definition max_length : nat := 500.

Definition truncated_html (first_html_snippet : str) : str :=
  firstn max_length first_html_snippet
    ++ (if max_length <? List.length first_html_snippet then lit "..." else []).

Inductive Report : Type :=
| CrawlSuccess (num_results : nat) (first : option (string * str))
| CrawlError (server_message : string)
| RequestFailed.

(** The response is the JSON body of a 200 answer, or the request failed
    ([raise_for_status()] raises on a 4xx or 5xx status).  Lines 34-66. *)
Definition report (response : outcome dict) : Report :=
  match response with
  | Raised _ => RequestFailed
  | Returned response_data =>
      if String.eqb (status response_data) "finished" then
        let results :=
          match results response_data with Some rs => rs | None => [] end in
        CrawlSuccess (List.length results)
          match results with
          | r :: _ => Some (url r, truncated_html (strip (html r)))
          | [] => None
          end
      else
        CrawlError
          match message response_data with
          | Some m => m
          | None => "No error message provided."
          end
  end.

(** Names used in the statements below. *)

Definition constructions (s : Main.State) : list Event :=
  filter is_construction (Main.events s).

Definition pool_construction_fails : InitEnv :=
  {| ProcessPoolExecutor_raises := Some (Exception "OSError: [Errno 12] Cannot allocate memory");
     Manager_raises := None |}.

Definition construction_fails_then_job : SubmitEnv :=
  {| init_env := pool_construction_fails; list_raises := None;
     worker_fault := None; scrapy := fetch_completes |}.

Definition list_fails : SubmitEnv :=
  {| init_env := constructors_return;
     list_raises := Some (Exception "ConnectionRefusedError: [Errno 111] Connection refused");
     worker_fault := None; scrapy := fetch_completes |}.

Definition example_request : CrawlerModels.CrawlRequest :=
  {| CrawlerModels.start_urls := ["http://example.test/a"];
     CrawlerModels.allowed_domains := ["example.test"] |}.

(** Both names of [app.main] set. *)
Definition main_live (s : Main.State) : bool :=
  negb (is_None (Main.executor s)) && negb (is_None (Main.manager s)).

(** What building the pool and then the coordinator comes to. *)
Definition construction_outcome (env : InitEnv) : outcome unit :=
  match ProcessPoolExecutor_raises env with
  | Some e => Raised e
  | None =>
      match Manager_raises env with
      | Some e => Raised e
      | None => Returned tt
      end
  end.


(** web-crawler.py, [crawl], lines 217-256: what the handler does once
    both globals are known to hold [p] and [m]. *)
Definition crawl_checked (h : Host) (env : SubmitEnv) (request : WebCrawler.Request)
    (p : ProcessPoolExecutor) (m : SyncManager) : M Main.State dict :=
  match WebCrawler.json request with
  | Raised e =>
      ret (WebCrawler.error ("Invalid JSON payload: " ++ exn_str e)%string)
  | Returned data =>
      start_urls <- WebCrawler.data_get data WebCrawler.body_start_urls ;;
      allowed_domains <- WebCrawler.data_get data WebCrawler.body_allowed_domains ;;
      match start_urls with
      | [] => ret (WebCrawler.error "start_urls must be provided.")
      | _ :: _ =>
          spider_results <- manager_list (list_raises env) m ;;
          try_except
            (res <- run_in_executor (worker_fault env) p
                      (WebCrawler.run_crawler h (scrapy env))
                      start_urls allowed_domains spider_results ;;
             ret {| status := "finished"; message := None; results := Some res |})
            (fun e =>
               ret (WebCrawler.error ("Crawl execution failed: " ++ exn_str e)%string))
      end
  end.

(** How [crawl] turns a request down before any work: with an error dict
    when the body is not JSON or is an object whose [start_urls] is missing
    or an empty list, with the [AttributeError] of [data.get] when the body
    is JSON but not an object.  [None] for a request that goes on to the
    pool. *)
Definition turned_down (request : WebCrawler.Request) : option (outcome dict) :=
  match WebCrawler.json request with
  | Raised e =>
      Some (Returned (WebCrawler.error ("Invalid JSON payload: " ++ exn_str e)%string))
  | Returned (WebCrawler.JsonOther kind) =>
      Some (Raised (Exception ("'" ++ WebCrawler.type_name kind
                                 ++ "' object has no attribute 'get'")%string))
  | Returned (WebCrawler.JsonObject body) =>
      match WebCrawler.get_or_empty (WebCrawler.body_start_urls body) with
      | [] => Some (Returned (WebCrawler.error "start_urls must be provided."))
      | _ :: _ => None
      end
  end.

Definition request_without_start_urls : WebCrawler.Request :=
  {| WebCrawler.json :=
       Returned (WebCrawler.JsonObject
                   {| WebCrawler.body_start_urls := None;
                      WebCrawler.body_allowed_domains := Some ["example.test"] |}) |}.

Definition request_with_a_list : WebCrawler.Request :=
  {| WebCrawler.json := Returned (WebCrawler.JsonOther WebCrawler.JsonList) |}.

Definition request_for_example : WebCrawler.Request :=
  {| WebCrawler.json :=
       Returned (WebCrawler.JsonObject
                   {| WebCrawler.body_start_urls := Some ["http://example.test/a"];
                      WebCrawler.body_allowed_domains := Some ["example.test"] |}) |}.

(** * Properties *)

(** ** The monad *)

Lemma bind_ret_l {S A B} (a : A) (k : A -> M S B) (s : S) :
  bind (ret a) k s = k a s.
Proof. reflexivity. Qed.

Lemma bind_returned {S A B} (m : M S A) (k : A -> M S B) s s' a :
  m s = (s', Returned a) -> bind m k s = k a s'.
Proof. intros E. unfold bind. rewrite E. reflexivity. Qed.

Lemma bind_raised {S A B} (m : M S A) (k : A -> M S B) s s' e :
  m s = (s', Raised e) -> bind m k s = (s', Raised e).
Proof. intros E. unfold bind. rewrite E. reflexivity. Qed.

Lemma zoom_returned {S T A} (proj : T -> S) upd (m : M S A) t s' a :
  m (proj t) = (s', Returned a) -> zoom proj upd m t = (upd s' t, Returned a).
Proof. intros E. unfold zoom. rewrite E. reflexivity. Qed.

Lemma zoom_raised {S T A} (proj : T -> S) upd (m : M S A) t s' e :
  m (proj t) = (s', Raised e) -> zoom proj upd m t = (upd s' t, Raised e).
Proof. intros E. unfold zoom. rewrite E. reflexivity. Qed.

(** ** init_resources *)

Ltac break_state s :=
  let ex := fresh "ex" in
  let mg := fresh "mg" in
  let n := fresh "n" in
  let evs := fresh "evs" in
  destruct s as [ex mg n evs].

(** With both references set the call returns at line 27. *)
Lemma init_resources_returns_early h env s p m :
  Main.executor s = Some p -> Main.manager s = Some m ->
  Main.init_resources h env s = (s, Returned tt).
Proof.
  break_state s. simpl. intros -> ->. reflexivity.
Qed.

(** Otherwise the pool constructor is called first; when it raises,
    nothing has been assigned. *)
Lemma init_resources_pool_raises h env s e :
  Main.executor s = None \/ Main.manager s = None ->
  ProcessPoolExecutor_raises env = Some e ->
  Main.init_resources h env s = (s, Raised e).
Proof.
  break_state s. simpl. intros Hs He.
  unfold Main.init_resources, Main.new_ProcessPoolExecutor.
  destruct Hs as [-> | ->]; [| destruct ex]; cbn;
    destruct (version_ge_3_11 h); cbn; rewrite He; reflexivity.
Qed.

(** When the pool is built and [Manager()] raises, the assignment of line
    35/37 has happened and the one of line 39 has not. *)
Lemma init_resources_manager_raises h env s e :
  Main.executor s = None \/ Main.manager s = None ->
  ProcessPoolExecutor_raises env = None ->
  Manager_raises env = Some e ->
  Main.init_resources h env s =
    ({| Main.executor := Some (pool_built h (Main.next_id s));
        Main.manager := Main.manager s;
        Main.next_id := S (Main.next_id s);
        Main.events := Main.events s ++ [PoolConstructed (pool_built h (Main.next_id s))] |},
     Raised e).
Proof.
  break_state s. simpl. intros Hs Hp Hm.
  unfold Main.init_resources, Main.new_ProcessPoolExecutor, Main.new_Manager, pool_built.
  destruct Hs as [-> | ->]; [| destruct ex]; cbn;
    destruct (version_ge_3_11 h); cbn; rewrite Hp; cbn; rewrite Hm; reflexivity.
Qed.

(** When both constructors return, both names are assigned. *)
Lemma init_resources_constructs h env s :
  Main.executor s = None \/ Main.manager s = None ->
  ProcessPoolExecutor_raises env = None ->
  Manager_raises env = None ->
  Main.init_resources h env s =
    ({| Main.executor := Some (pool_built h (Main.next_id s));
        Main.manager := Some {| manager_id := S (Main.next_id s) |};
        Main.next_id := S (S (Main.next_id s));
        Main.events :=
          (Main.events s ++ [PoolConstructed (pool_built h (Main.next_id s))])
            ++ [ManagerConstructed {| manager_id := S (Main.next_id s) |}] |},
     Returned tt).
Proof.
  break_state s. simpl. intros Hs Hp Hm.
  unfold Main.init_resources, Main.new_ProcessPoolExecutor, Main.new_Manager, pool_built.
  destruct Hs as [-> | ->]; [| destruct ex]; cbn;
    destruct (version_ge_3_11 h); cbn; rewrite Hp; cbn; rewrite Hm; reflexivity.
Qed.

(** The three ways a call can go, in one statement. *)
Lemma init_resources_cases (s : Main.State) :
  (exists p m, Main.executor s = Some p /\ Main.manager s = Some m) \/
  (Main.executor s = None \/ Main.manager s = None).
Proof.
  destruct (Main.executor s); destruct (Main.manager s); eauto.
Qed.

(** Whatever happens, the call adds constructions to the events and nothing
    else. *)
Lemma init_resources_events h env s :
  exists evs,
    Main.events (fst (Main.init_resources h env s)) = Main.events s ++ evs /\
    forallb is_construction evs = true.
Proof.
  destruct (init_resources_cases s) as [(p & m & Hp & Hm) | Hs].
  - rewrite (init_resources_returns_early h env s p m Hp Hm). exists []. simpl.
    rewrite app_nil_r. auto.
  - destruct (ProcessPoolExecutor_raises env) as [e|] eqn:Ep.
    + rewrite (init_resources_pool_raises h env s e Hs Ep). exists []. simpl.
      rewrite app_nil_r. auto.
    + destruct (Manager_raises env) as [e|] eqn:Em.
      * rewrite (init_resources_manager_raises h env s e Hs Ep Em). simpl. eauto.
      * rewrite (init_resources_constructs h env s Hs Ep Em). simpl.
        rewrite <- app_assoc. simpl. eauto.
Qed.

(** Identities stay below the interpreter's counter. *)
Lemma init_resources_ids_allocated h env s :
  Main.ids_allocated s ->
  Main.ids_allocated (fst (Main.init_resources h env s)).
Proof.
  intros [Hp Hm].
  destruct (init_resources_cases s) as [(p & m & Ep' & Em') | Hs].
  - rewrite (init_resources_returns_early h env s p m Ep' Em'). split; assumption.
  - destruct (ProcessPoolExecutor_raises env) as [e|] eqn:Ep.
    + rewrite (init_resources_pool_raises h env s e Hs Ep). split; assumption.
    + destruct (Manager_raises env) as [e|] eqn:Em.
      * rewrite (init_resources_manager_raises h env s e Hs Ep Em).
        split; simpl; intros x Hx.
        -- injection Hx as <-. simpl. lia.
        -- apply Hm in Hx. lia.
      * rewrite (init_resources_constructs h env s Hs Ep Em).
        split; simpl; intros x Hx; injection Hx as <-; simpl; lia.
Qed.

(** C5.  [init_resources] is idempotent on a live pool: with both the pool
    and the coordinator references set, a call returns without touching
    the state -- same references, same identity counter, no construction
    among the events -- and so do two calls in a row, whatever the
    constructors would have done. *)
Theorem init_resources_idempotent (h : Host) (env1 env2 : InitEnv) (s : Main.State) :
  Main.both_live s ->
  Main.init_resources h env1 s = (s, Returned tt) /\
  (Main.init_resources h env1 ;; Main.init_resources h env2) s = (s, Returned tt).
Proof.
  intros [Hp Hm].
  destruct (Main.executor s) as [p|] eqn:Ep; [| contradiction].
  destruct (Main.manager s) as [m|] eqn:Em; [| contradiction].
  assert (H1 : forall env, Main.init_resources h env s = (s, Returned tt))
    by (intros env; apply (init_resources_returns_early h env s p m Ep Em)).
  split; [apply H1 |].
  rewrite (bind_returned _ _ s s tt (H1 env1)). apply H1.
Qed.

(** C5 on the started service, whatever the constructors would do. *)
Lemma init_resources_idempotent_witness :
  Main.both_live started /\
  (Main.init_resources example_host manager_construction_fails started
     = (started, Returned tt) /\
   (Main.init_resources example_host manager_construction_fails ;;
    Main.init_resources example_host constructors_return) started
     = (started, Returned tt)).
Proof.
  assert (H : Main.both_live started) by (split; simpl; discriminate).
  split; [exact H |].
  exact (init_resources_idempotent example_host manager_construction_fails
           constructors_return started H).
Defined.

(** C10.  In a partial state (exactly one of the two references set) the
    call does not return early: when both constructors return, it builds a
    new pool and a new coordinator, assigns both names -- the new objects
    are not the old ones -- and the only events it adds are the two
    constructions: the instance that was still referenced is not shut
    down. *)
Theorem init_resources_partial_state (h : Host) (env : InitEnv) (s : Main.State) :
  Main.partial s ->
  Main.ids_allocated s ->
  ProcessPoolExecutor_raises env = None ->
  Manager_raises env = None ->
  exists p m s',
    Main.init_resources h env s = (s', Returned tt) /\
    Main.executor s' = Some p /\ Main.manager s' = Some m /\
    pool_id p = Main.next_id s /\ manager_id m = S (Main.next_id s) /\
    Main.executor s <> Some p /\ Main.manager s <> Some m /\
    Main.events s' = Main.events s ++ [PoolConstructed p; ManagerConstructed m] /\
    filter is_shutdown (Main.events s') = filter is_shutdown (Main.events s).
Proof.
  intros Hpart [Hip Him] Hp Hm.
  assert (Hs : Main.executor s = None \/ Main.manager s = None)
    by (destruct Hpart as [[_ ->] | [-> _]]; auto).
  eexists _, _, _.
  split; [apply (init_resources_constructs h env s Hs Hp Hm) |].
  simpl. repeat split.
  - intros E. apply Hip in E. simpl in E. lia.
  - intros E. apply Him in E. simpl in E. lia.
  - rewrite <- app_assoc. reflexivity.
  - rewrite !filter_app. simpl. rewrite !app_nil_r. reflexivity.
Qed.

(** C10 on the state a failed [Manager()] leaves behind. *)
Lemma init_resources_partial_state_witness :
  Main.partial half_started /\ Main.ids_allocated half_started /\
  exists p m s',
    Main.init_resources example_host constructors_return half_started
      = (s', Returned tt) /\
    Main.executor s' = Some p /\ Main.manager s' = Some m /\
    pool_id p = Main.next_id half_started /\
    manager_id m = S (Main.next_id half_started) /\
    Main.executor half_started <> Some p /\ Main.manager half_started <> Some m /\
    Main.events s' =
      Main.events half_started ++ [PoolConstructed p; ManagerConstructed m] /\
    filter is_shutdown (Main.events s') =
      filter is_shutdown (Main.events half_started).
Proof.
  assert (H1 : Main.partial half_started)
    by (left; split; simpl; [discriminate | reflexivity]).
  assert (H2 : Main.ids_allocated half_started).
  { split; simpl; intros x Hx; [injection Hx as <-; simpl; lia | discriminate]. }
  split; [exact H1 |]. split; [exact H2 |].
  exact (init_resources_partial_state example_host constructors_return
           half_started H1 H2 eq_refl eq_refl).
Defined.

(** C1, as stated, fails: from the unset state, when the pool is built and
    [Manager()] raises, the call leaves the pool reference set. *)
Lemma init_resources_failure_leaves_pool_set :
  ~ (forall (h : Host) (env : InitEnv) (s s' : Main.State) (e : exn),
       Main.init_resources h env s = (s', Raised e) ->
       Main.executor s' = None /\ Main.manager s' = None).
Proof.
  intros H.
  destruct (H example_host manager_construction_fails Main.loaded half_started
              (Exception "OSError: [Errno 24] Too many open files") eq_refl)
    as [E _].
  discriminate E.
Qed.

(** C1, amended.  When [init_resources] raises [e], either the pool
    constructor raised [e] and the state is the one before the call (both
    references as they were), or the pool was built, [Manager()] raised
    [e], the pool reference holds the pool built in this call and the
    coordinator reference is as it was; from the unset state this leaves
    exactly one of the two set. *)
Theorem init_resources_failure (h : Host) (env : InitEnv) (s s' : Main.State) (e : exn) :
  Main.init_resources h env s = (s', Raised e) ->
  (ProcessPoolExecutor_raises env = Some e /\ s' = s) \/
  (ProcessPoolExecutor_raises env = None /\ Manager_raises env = Some e /\
   Main.executor s' = Some (pool_built h (Main.next_id s)) /\
   Main.manager s' = Main.manager s /\
   Main.events s' =
     Main.events s ++ [PoolConstructed (pool_built h (Main.next_id s))] /\
   (Main.executor s = None -> Main.manager s = None -> Main.partial s')).
Proof.
  intros H.
  destruct (init_resources_cases s) as [(p & m & Ep' & Em') | Hs].
  - rewrite (init_resources_returns_early h env s p m Ep' Em') in H. discriminate H.
  - destruct (ProcessPoolExecutor_raises env) as [e1|] eqn:Ep.
    + rewrite (init_resources_pool_raises h env s e1 Hs Ep) in H.
      injection H as <- <-. left. auto.
    + destruct (Manager_raises env) as [e1|] eqn:Em.
      * rewrite (init_resources_manager_raises h env s e1 Hs Ep Em) in H.
        injection H as <- <-. right. simpl. repeat split.
        intros _ E. left. simpl. split; [discriminate | exact E].
      * rewrite (init_resources_constructs h env s Hs Ep Em) in H. discriminate H.
Qed.

(** C1, amended, on a start-up in which [Manager()] raises. *)
Lemma init_resources_failure_witness :
  Main.init_resources example_host manager_construction_fails Main.loaded
    = (half_started, Raised (Exception "OSError: [Errno 24] Too many open files")) /\
  ((ProcessPoolExecutor_raises manager_construction_fails
      = Some (Exception "OSError: [Errno 24] Too many open files") /\
    half_started = Main.loaded) \/
   (ProcessPoolExecutor_raises manager_construction_fails = None /\
    Manager_raises manager_construction_fails
      = Some (Exception "OSError: [Errno 24] Too many open files") /\
    Main.executor half_started
      = Some (pool_built example_host (Main.next_id Main.loaded)) /\
    Main.manager half_started = Main.manager Main.loaded /\
    Main.events half_started =
      Main.events Main.loaded
        ++ [PoolConstructed (pool_built example_host (Main.next_id Main.loaded))] /\
    (Main.executor Main.loaded = None -> Main.manager Main.loaded = None ->
     Main.partial half_started))).
Proof.
  split; [reflexivity |].
  exact (init_resources_failure example_host manager_construction_fails
           Main.loaded half_started
           (Exception "OSError: [Errno 24] Too many open files") eq_refl).
Defined.

(** ** The job runner *)

Lemma parse_appends h r sink :
  CrawlerService.parse h r sink = (sink ++ [page_result h r], Returned (page_result h r)).
Proof. reflexivity. Qed.

Lemma parse_each_appends h rs : forall sink,
  CrawlerService.parse_each h rs sink = (sink ++ map (page_result h) rs, Returned tt).
Proof.
  induction rs as [| r rs IH]; intros sink; simpl.
  - rewrite app_nil_r. reflexivity.
  - rewrite (bind_returned _ _ _ _ _ (parse_appends h r sink)).
    rewrite IH, <- app_assoc. reflexivity.
Qed.

Lemma run_crawler_process_constructor_raises h fetch start allowed sink e :
  CrawlerProcess_raises (fetch start allowed) = Some e ->
  CrawlerService.run_crawler_process h fetch start allowed sink = (sink, Raised e).
Proof.
  intros E. unfold CrawlerService.run_crawler_process. rewrite E. reflexivity.
Qed.

Lemma run_crawler_process_crawl_raises h fetch start allowed sink e :
  CrawlerProcess_raises (fetch start allowed) = None ->
  crawl_raises (fetch start allowed) = Some e ->
  CrawlerService.run_crawler_process h fetch start allowed sink =
    (sink ++ map (page_result h) (responses (fetch start allowed)), Returned []).
Proof.
  intros E1 E2.
  unfold CrawlerService.run_crawler_process, CrawlerService.crawl_and_start.
  rewrite E1, E2. unfold try_except, bind.
  rewrite parse_each_appends. reflexivity.
Qed.

Lemma run_crawler_process_completes h fetch start allowed sink :
  CrawlerProcess_raises (fetch start allowed) = None ->
  crawl_raises (fetch start allowed) = None ->
  CrawlerService.run_crawler_process h fetch start allowed sink =
    (sink ++ map (page_result h) (responses (fetch start allowed)),
     Returned (sink ++ map (page_result h) (responses (fetch start allowed)))).
Proof.
  intros E1 E2.
  unfold CrawlerService.run_crawler_process, CrawlerService.crawl_and_start.
  rewrite E1, E2. unfold try_except, bind.
  rewrite parse_each_appends. reflexivity.
Qed.

(** The job raises only when [CrawlerProcess()] does. *)
Lemma run_crawler_process_raises_iff h fetch start allowed sink e :
  snd (CrawlerService.run_crawler_process h fetch start allowed sink) = Raised e <->
  CrawlerProcess_raises (fetch start allowed) = Some e.
Proof.
  destruct (CrawlerProcess_raises (fetch start allowed)) as [e1|] eqn:E1.
  - rewrite (run_crawler_process_constructor_raises h fetch start allowed sink e1 E1).
    simpl. split; intros H; injection H as ->; reflexivity.
  - destruct (crawl_raises (fetch start allowed)) as [e2|] eqn:E2.
    + rewrite (run_crawler_process_crawl_raises h fetch start allowed sink e2 E1 E2).
      simpl. split; discriminate.
    + rewrite (run_crawler_process_completes h fetch start allowed sink E1 E2).
      simpl. split; discriminate.
Qed.

(** C9.  With [CrawlerProcess()] built, the shared list ends up holding
    every item parsed during the run.  When the run raises, the function
    returns the empty list, so with at least one response parsed the
    returned value is not the content of the shared list; when the run
    does not raise, the returned value is that content.  Hence, once a
    response has been parsed, returned value and shared list agree exactly
    on the runs that do not raise. *)
Theorem run_crawler_process_discards_partial_results
    (h : Host) (fetch : FetchCollaborator) (start_urls allowed_domains : list string)
    (sink : Sink) :
  CrawlerProcess_raises (fetch start_urls allowed_domains) = None ->
  responses (fetch start_urls allowed_domains) <> [] ->
  let run := fetch start_urls allowed_domains in
  let sink' := sink ++ map (page_result h) (responses run) in
  let res := CrawlerService.run_crawler_process h fetch start_urls allowed_domains sink in
  fst res = sink' /\
  (forall e, crawl_raises run = Some e ->
     snd res = Returned [] /\ snd res <> Returned (fst res)) /\
  (crawl_raises run = None -> snd res = Returned (fst res)) /\
  (snd res = Returned (fst res) <-> crawl_raises run = None).
Proof.
  intros Hc Hr run sink' res.
  assert (Hne : sink' <> []).
  { unfold sink'. intros E. apply app_eq_nil in E. destruct E as [_ E].
    apply map_eq_nil in E. exact (Hr E). }
  destruct (crawl_raises run) as [e|] eqn:E; subst res.
  - rewrite (run_crawler_process_crawl_raises h fetch start_urls allowed_domains
               sink e Hc E).
    simpl. fold run. fold sink'.
    assert (Hd : Returned [] <> Returned sink')
      by (intros X; injection X as X; exact (Hne (eq_sym X))).
    split; [reflexivity |]. split; [| split].
    + intros e' _. split; [reflexivity | exact Hd].
    + discriminate.
    + split; [intros X; destruct (Hd X) | discriminate].
  - rewrite (run_crawler_process_completes h fetch start_urls allowed_domains
               sink Hc E).
    simpl. fold run. fold sink'.
    split; [reflexivity |]. split; [| split].
    + discriminate.
    + reflexivity.
    + split; reflexivity.
Qed.

(** ** The service *)

Lemma no_dispatch_among_constructions evs :
  forallb is_construction evs = true -> filter is_dispatch evs = [].
Proof.
  induction evs as [| ev evs IH]; simpl; [reflexivity |].
  intros H. apply andb_true_iff in H. destruct H as [H1 H2].
  destruct ev; simpl in *; try discriminate; auto.
Qed.

(** [init_resources], called from the service module, assigns the names of
    [app.main]; the names of the service module are not touched, and no job
    is dispatched. *)
Lemma service_init_resources h env s :
  CrawlerService.init_resources h env s =
    ({| CrawlerService.main := fst (Main.init_resources h env (CrawlerService.main s));
        CrawlerService.executor := CrawlerService.executor s;
        CrawlerService.manager := CrawlerService.manager s |},
     snd (Main.init_resources h env (CrawlerService.main s))).
Proof.
  unfold CrawlerService.init_resources, CrawlerService.in_main, zoom.
  destruct (Main.init_resources h env (CrawlerService.main s)). reflexivity.
Qed.

Lemma service_init_resources_dispatches h env s :
  dispatches (fst (CrawlerService.init_resources h env s)) = dispatches s.
Proof.
  rewrite service_init_resources. unfold dispatches. simpl.
  destruct (init_resources_events h env (CrawlerService.main s)) as (evs & -> & Hc).
  rewrite filter_app, (no_dispatch_among_constructions evs Hc), app_nil_r.
  reflexivity.
Qed.

(** Lines 82-103: once the shared list is allocated the job is dispatched,
    and whatever the future gives, a dict is returned. *)
Lemma submit_dispatches h env p m start allowed s :
  list_raises env = None ->
  CrawlerService.submit h env p m start allowed s =
    (after_dispatch s p m start allowed,
     Returned match awaited h env start allowed with
              | Returned res => CrawlerService.finished res
              | Raised e => CrawlerService.crawl_failed e
              end).
Proof.
  intros El. destruct s as [[ex mg n evs] sex smg].
  unfold CrawlerService.submit, awaited, manager_list, run_in_executor.
  rewrite El. cbn.
  destruct (worker_fault env) as [e|]; cbn; [reflexivity |].
  destruct (CrawlerService.run_crawler_process h (scrapy env) start allowed [])
    as [sink [res | e]]; reflexivity.
Qed.

(** [manager.list()] is called outside the [try]. *)
Lemma submit_list_raises h env p m start allowed s e :
  list_raises env = Some e ->
  CrawlerService.submit h env p m start allowed s = (s, Raised e).
Proof.
  intros El. destruct s as [ms sex smg].
  unfold CrawlerService.submit, manager_list. rewrite El. reflexivity.
Qed.

Lemma crawl_service_live h env start allowed s p m :
  CrawlerService.executor s = Some p ->
  CrawlerService.manager s = Some m ->
  CrawlerService.crawl_service h env start allowed s =
    CrawlerService.submit h env p m start allowed s.
Proof.
  intros Ep Em. unfold CrawlerService.crawl_service, bind at 1. simpl.
  rewrite Ep, Em. reflexivity.
Qed.

(** With one of the module's own names unset, the call re-initialises
    [app.main] and then reads the same two names again. *)
Lemma crawl_service_unset h env start allowed s :
  CrawlerService.executor s = None \/ CrawlerService.manager s = None ->
  CrawlerService.crawl_service h env start allowed s =
    (fst (CrawlerService.init_resources h (init_env env) s),
     match snd (CrawlerService.init_resources h (init_env env) s) with
     | Returned _ => Returned CrawlerService.not_initialized
     | Raised e => Raised e
     end).
Proof.
  intros Hs. unfold CrawlerService.crawl_service, bind at 1. simpl.
  assert (E : match CrawlerService.executor s, CrawlerService.manager s with
              | Some _, Some _ => false
              | _, _ => true
              end = true)
    by (destruct Hs as [-> | ->]; [| destruct (CrawlerService.executor s)]; reflexivity).
  rewrite service_init_resources.
  destruct (Main.init_resources h (init_env env) (CrawlerService.main s))
    as [ms' [[] | e]] eqn:Ei;
    destruct (CrawlerService.executor s) as [p|] eqn:Ep;
    destruct (CrawlerService.manager s) as [m|] eqn:Em;
    try discriminate E;
    unfold bind; rewrite service_init_resources, Ei; simpl;
    rewrite ?Ep, ?Em; reflexivity.
Qed.

(** Lines 105-122 and what follows: a refresh always returns a dict, leaves
    the module's two names unset and dispatches nothing. *)
Lemma refresh_unsets_service_names h senv ienv s :
  exists s1 d,
    CrawlerService.refresh_resources_service h senv ienv s = (s1, Returned d) /\
    CrawlerService.executor s1 = None /\ CrawlerService.manager s1 = None /\
    dispatches s1 = dispatches s.
Proof.
  destruct s as [[ex mg n evs] sex smg].
  unfold CrawlerService.refresh_resources_service.
  unfold executor_shutdown, manager_shutdown.
  set (step3 := try_except (bind (CrawlerService.init_resources h ienv) _) _).
  assert (H3 : forall t,
             CrawlerService.executor t = None -> CrawlerService.manager t = None ->
             exists s1 d, step3 t = (s1, Returned d) /\
               CrawlerService.executor s1 = None /\ CrawlerService.manager s1 = None /\
               dispatches s1 = dispatches t).
  { intros t Hte Htm. subst step3. unfold try_except, bind.
    pose proof (service_init_resources_dispatches h ienv t) as Hd.
    rewrite service_init_resources in *.
    destruct (Main.init_resources h ienv (CrawlerService.main t)) as [ms' [[] | e]];
      simpl in *; eexists _, _; (split; [reflexivity |]); simpl; auto. }
  destruct sex as [p|]; destruct smg as [m|];
    destruct (executor_shutdown_raises senv) as [e1|];
    destruct (manager_shutdown_raises senv) as [e2|]; cbn;
    match goal with
    | |- exists s1 d, step3 ?t = _ /\ _ =>
        destruct (H3 t eq_refl eq_refl) as (s1 & d & E & H1 & H2 & Hd);
        exists s1, d; rewrite E, H1, H2, Hd;
        repeat split; unfold dispatches; simpl;
        rewrite ?filter_app; simpl; rewrite ?app_nil_r; reflexivity
    end.
Qed.

(** C2.  What the code does on [Refresh()] followed by [Submit(job)]:
    the refresh returns with the service module's two names unset;
    [crawl_service] then calls [init_resources], which assigns the names of
    [app.main], reads its own two names again, finds them unset, and
    returns the resources-not-initialized error (or propagates the
    exception of [init_resources]).  No job is dispatched, for any job and
    whatever the constructors do. *)
Theorem refresh_then_crawl_service_not_initialized
    (h : Host) (senv : ShutdownEnv) (ienv : InitEnv) (env : SubmitEnv)
    (start_urls allowed_domains : list string) (s : CrawlerService.State) :
  exists s1 d,
    CrawlerService.refresh_resources_service h senv ienv s = (s1, Returned d) /\
    (snd (CrawlerService.crawl_service h env start_urls allowed_domains s1)
       = Returned CrawlerService.not_initialized \/
     exists e,
       snd (CrawlerService.crawl_service h env start_urls allowed_domains s1)
         = Raised e) /\
    dispatches (fst (CrawlerService.crawl_service h env start_urls allowed_domains s1))
      = dispatches s.
Proof.
  destruct (refresh_unsets_service_names h senv ienv s)
    as (s1 & d & E & He & Hm & Hd).
  exists s1, d. split; [exact E |].
  rewrite (crawl_service_unset h env start_urls allowed_domains s1 (or_introl He)).
  simpl. split.
  - destruct (snd (CrawlerService.init_resources h (init_env env) s1)) as [u | e];
      [left; reflexivity | right; exists e; reflexivity].
  - rewrite service_init_resources_dispatches. exact Hd.
Qed.

(** C3.  A job has been dispatched (both names set, shared list allocated)
    and its execution fails: the executor reports a fault in place of a
    result, or the job itself raises in the worker.  Then [crawl_service]
    returns -- it does not raise -- the dict with status ["error"], the
    message built from the exception, and empty results. *)
Theorem crawl_service_worker_failure
    (h : Host) (env : SubmitEnv) (start_urls allowed_domains : list string)
    (s : CrawlerService.State) (p : ProcessPoolExecutor) (m : SyncManager) (e : exn) :
  CrawlerService.executor s = Some p ->
  CrawlerService.manager s = Some m ->
  list_raises env = None ->
  worker_fault env = Some e \/
  (worker_fault env = None /\
   CrawlerProcess_raises (scrapy env start_urls allowed_domains) = Some e) ->
  CrawlerService.crawl_service h env start_urls allowed_domains s =
    (after_dispatch s p m start_urls allowed_domains,
     Returned {| status := "error";
                 message := Some ("Crawl execution failed: " ++ exn_str e)%string;
                 results := Some [] |}).
Proof.
  intros Ep Em El Hf.
  rewrite (crawl_service_live h env start_urls allowed_domains s p m Ep Em).
  rewrite (submit_dispatches h env p m start_urls allowed_domains s El).
  assert (Ea : awaited h env start_urls allowed_domains = Raised e).
  { unfold awaited. destruct Hf as [-> | [-> Hc]]; [reflexivity |].
    apply run_crawler_process_raises_iff. exact Hc. }
  rewrite Ea. reflexivity.
Qed.

(** C3 on a pool whose worker process is killed. *)
Lemma crawl_service_worker_failure_witness :
  CrawlerService.crawl_service example_host worker_dies
    ["http://example.test/a"] ["example.test"] service_live =
    (after_dispatch service_live (pool_built example_host 0) {| manager_id := 1 |}
       ["http://example.test/a"] ["example.test"],
     Returned {| status := "error";
                 message := Some "Crawl execution failed: A process in the process pool was terminated abruptly while the future was running or pending.";
                 results := Some [] |}).
Proof.
  exact (crawl_service_worker_failure example_host worker_dies
           ["http://example.test/a"] ["example.test"] service_live
           (pool_built example_host 0) {| manager_id := 1 |}
           (Exception "A process in the process pool was terminated abruptly while the future was running or pending.")
           eq_refl eq_refl eq_refl (or_introl eq_refl)).
Defined.

(** C4.  What the code does when the Fetch Collaborator raises at its
    construction: [CrawlerProcess()] is called at line 61, before the
    [try] of line 62, so [run_crawler_process] does not catch the
    exception and does not return the empty list -- it raises, whatever
    the shared list holds.  The awaited future then raises in the
    frontend, and [crawl_service] answers with status ["error"], the
    message built from the exception, and empty results. *)
Theorem fetch_collaborator_construction_failure_propagates
    (h : Host) (env : SubmitEnv) (start_urls allowed_domains : list string)
    (s : CrawlerService.State) (p : ProcessPoolExecutor) (m : SyncManager) (e : exn) :
  CrawlerService.executor s = Some p ->
  CrawlerService.manager s = Some m ->
  list_raises env = None -> worker_fault env = None ->
  CrawlerProcess_raises (scrapy env start_urls allowed_domains) = Some e ->
  (forall sink,
     CrawlerService.run_crawler_process h (scrapy env) start_urls allowed_domains sink
       = (sink, Raised e)) /\
  CrawlerService.crawl_service h env start_urls allowed_domains s =
    (after_dispatch s p m start_urls allowed_domains,
     Returned {| status := "error";
                 message := Some ("Crawl execution failed: " ++ exn_str e)%string;
                 results := Some [] |}).
Proof.
  intros Ep Em El Ew Ec.
  split.
  - intros sink.
    apply (run_crawler_process_constructor_raises h (scrapy env) start_urls
             allowed_domains sink e Ec).
  - rewrite (crawl_service_live h env start_urls allowed_domains s p m Ep Em).
    rewrite (submit_dispatches h env p m start_urls allowed_domains s El).
    unfold awaited. rewrite Ew.
    rewrite (run_crawler_process_constructor_raises h (scrapy env) start_urls
               allowed_domains [] e Ec).
    reflexivity.
Qed.

(** C4 on a job whose [CrawlerProcess()] raises, with one item already in
    the shared list. *)
Lemma fetch_collaborator_construction_failure_propagates_witness :
  CrawlerService.run_crawler_process example_host (scrapy job_construction_fails)
    ["http://example.test/a"] ["example.test"]
    [page_result example_host example_response]
    = ([page_result example_host example_response],
       Raised (Exception "AttributeError: module 'lib' has no attribute 'X509_V_FLAG_CB_ISSUER_CHECK'")) /\
  CrawlerService.crawl_service example_host job_construction_fails
    ["http://example.test/a"] ["example.test"] service_live =
    (after_dispatch service_live (pool_built example_host 0) {| manager_id := 1 |}
       ["http://example.test/a"] ["example.test"],
     Returned {| status := "error";
                 message := Some "Crawl execution failed: AttributeError: module 'lib' has no attribute 'X509_V_FLAG_CB_ISSUER_CHECK'";
                 results := Some [] |}).
Proof.
  destruct (fetch_collaborator_construction_failure_propagates example_host
              job_construction_fails ["http://example.test/a"] ["example.test"]
              service_live (pool_built example_host 0) {| manager_id := 1 |}
              (Exception "AttributeError: module 'lib' has no attribute 'X509_V_FLAG_CB_ISSUER_CHECK'")
              eq_refl eq_refl eq_refl eq_refl eq_refl) as [H1 H2].
  split; [apply H1 | exact H2].
Defined.

(** C9 on a run that raises after one response has been parsed. *)
Lemma run_crawler_process_discards_partial_results_witness :
  let run := fetch_raises ["http://example.test/a"] ["example.test"] in
  let sink' := [] ++ map (page_result example_host) (responses run) in
  let res :=
    CrawlerService.run_crawler_process example_host fetch_raises
      ["http://example.test/a"] ["example.test"] [] in
  fst res = sink' /\
  (forall e, crawl_raises run = Some e ->
     snd res = Returned [] /\ snd res <> Returned (fst res)) /\
  (crawl_raises run = None -> snd res = Returned (fst res)) /\
  (snd res = Returned (fst res) <-> crawl_raises run = None).
Proof.
  apply (run_crawler_process_discards_partial_results example_host fetch_raises
           ["http://example.test/a"] ["example.test"] []).
  - reflexivity.
  - simpl. discriminate.
Defined.

(** C6.  What [crawl_service] does with an empty [start_urls] when its two
    names are set: nothing checks the list; the job is handed to the pool
    with [start_urls = []], and when the worker runs it the status is
    ["finished"]. *)
Theorem crawl_service_dispatches_empty_start_urls
    (h : Host) (env : SubmitEnv) (allowed_domains : list string)
    (s : CrawlerService.State) (p : ProcessPoolExecutor) (m : SyncManager) :
  CrawlerService.executor s = Some p ->
  CrawlerService.manager s = Some m ->
  list_raises env = None ->
  exists d,
    CrawlerService.crawl_service h env [] allowed_domains s =
      (after_dispatch s p m [] allowed_domains, Returned d) /\
    dispatches (after_dispatch s p m [] allowed_domains) =
      dispatches s
        ++ [Dispatched p [] allowed_domains (Main.next_id (CrawlerService.main s))] /\
    (worker_fault env = None ->
     CrawlerProcess_raises (scrapy env [] allowed_domains) = None ->
     status d = "finished").
Proof.
  intros Ep Em El.
  rewrite (crawl_service_live h env [] allowed_domains s p m Ep Em).
  rewrite (submit_dispatches h env p m [] allowed_domains s El).
  eexists. split; [reflexivity |]. split.
  - unfold dispatches. simpl. rewrite !filter_app. simpl.
    rewrite app_nil_r. reflexivity.
  - intros Ew Ec. unfold awaited. rewrite Ew.
    destruct (crawl_raises (scrapy env [] allowed_domains)) as [e|] eqn:Er.
    + rewrite (run_crawler_process_crawl_raises h (scrapy env) [] allowed_domains
                 [] e Ec Er).
      reflexivity.
    + rewrite (run_crawler_process_completes h (scrapy env) [] allowed_domains
                 [] Ec Er).
      reflexivity.
Qed.

(** C6 on the service module loaded after start-up. *)
Lemma crawl_service_dispatches_empty_start_urls_witness :
  exists d,
    CrawlerService.crawl_service example_host job_completes [] ["example.test"]
      service_live =
      (after_dispatch service_live (pool_built example_host 0) {| manager_id := 1 |}
         [] ["example.test"],
       Returned d) /\
    dispatches (after_dispatch service_live (pool_built example_host 0)
                  {| manager_id := 1 |} [] ["example.test"]) =
      dispatches service_live
        ++ [Dispatched (pool_built example_host 0) [] ["example.test"]
              (Main.next_id (CrawlerService.main service_live))] /\
    (worker_fault job_completes = None ->
     CrawlerProcess_raises (scrapy job_completes [] ["example.test"]) = None ->
     status d = "finished").
Proof.
  exact (crawl_service_dispatches_empty_start_urls example_host job_completes
           ["example.test"] service_live (pool_built example_host 0)
           {| manager_id := 1 |} eq_refl eq_refl eq_refl).
Defined.

(** ** The HTTP boundary *)

Lemma CrawlResult_round_trip rs :
  map CrawlerModels.PageResult_of (map CrawlerModels.CrawlResult_of rs) = rs.
Proof.
  induction rs as [| [u t] rs IH]; simpl; [reflexivity |].
  rewrite IH. reflexivity.
Qed.

(** Every dict [crawl_service] returns has the ["results"] key. *)
Lemma crawl_service_has_results h env start allowed s d :
  snd (CrawlerService.crawl_service h env start allowed s) = Returned d ->
  results d <> None.
Proof.
  destruct (CrawlerService.executor s) as [p|] eqn:Ep;
    [destruct (CrawlerService.manager s) as [m|] eqn:Em |].
  - rewrite (crawl_service_live h env start allowed s p m Ep Em).
    destruct (list_raises env) as [e|] eqn:El.
    + rewrite (submit_list_raises h env p m start allowed s e El). discriminate.
    + rewrite (submit_dispatches h env p m start allowed s El). simpl.
      intros H. injection H as <-.
      destruct (awaited h env start allowed); discriminate.
  - rewrite (crawl_service_unset h env start allowed s (or_intror Em)). simpl.
    destruct (snd (CrawlerService.init_resources h (init_env env) s));
      [intros H; injection H as <- |]; discriminate.
  - rewrite (crawl_service_unset h env start allowed s (or_introl Ep)). simpl.
    destruct (snd (CrawlerService.init_resources h (init_env env) s));
      [intros H; injection H as <- |]; discriminate.
Qed.

(** C8.  What goes out of [POST /crawl]: when the service returns a dict,
    the response carries its status and its results and no ["message"]
    key, since [CrawlResponse] has no such field; when the service raises,
    so does the endpoint.  In particular the message of the
    resources-not-initialized error does not reach the caller. *)
Theorem post_crawl_drops_message
    (h : Host) (env : SubmitEnv) (request : CrawlerModels.CrawlRequest)
    (s : CrawlerService.State) :
  CrawlerController.post_crawl h env request s =
    (fst (CrawlerService.crawl_service h env
            (CrawlerModels.start_urls request)
            (CrawlerModels.allowed_domains request) s),
     match snd (CrawlerService.crawl_service h env
                  (CrawlerModels.start_urls request)
                  (CrawlerModels.allowed_domains request) s) with
     | Returned d => Returned (without_message d)
     | Raised e => Raised e
     end) /\
  snd (CrawlerService.crawl_service example_host job_completes
         ["http://example.test/a"] ["example.test"] service_unset) =
    Returned {| status := "error";
                message := Some "Server resources are not initialized. Please ensure the server started correctly.";
                results := Some [] |} /\
  snd (CrawlerController.post_crawl example_host job_completes
         {| CrawlerModels.start_urls := ["http://example.test/a"];
            CrawlerModels.allowed_domains := ["example.test"] |} service_unset) =
    Returned {| status := "error"; message := None; results := Some [] |}.
Proof.
  split; [| split; reflexivity].
  unfold CrawlerController.post_crawl, CrawlerController.crawl_endpoint.
  pose proof (crawl_service_has_results h env (CrawlerModels.start_urls request)
                (CrawlerModels.allowed_domains request) s) as Hres.
  unfold bind.
  destruct (CrawlerService.crawl_service h env (CrawlerModels.start_urls request)
              (CrawlerModels.allowed_domains request) s) as [s' [d | e]];
    simpl in *; [| reflexivity].
  destruct d as [st msg [rs |]]; simpl.
  - unfold CrawlerModels.dump, without_message. simpl.
    rewrite CrawlResult_round_trip. reflexivity.
  - destruct (Hres _ eq_refl eq_refl).
Qed.

(** ** web-crawler.py, for comparison *)

(** In the single file the handlers and [init_resources] share their
    globals: after a refresh whose constructors return, a crawl with a
    non-empty [start_urls] is dispatched and finishes. *)
Lemma web_crawler_refresh_then_crawl h senv env u start allowed s :
  list_raises env = None -> worker_fault env = None ->
  CrawlerProcess_raises (scrapy env (u :: start) allowed) = None ->
  crawl_raises (scrapy env (u :: start) allowed) = None ->
  exists s1 d s2,
    WebCrawler.refresh_resources h senv constructors_return s = (s1, Returned d) /\
    status d = "refreshed_and_restarted" /\
    WebCrawler.crawl h env
      {| WebCrawler.json :=
           Returned (WebCrawler.JsonObject
                       {| WebCrawler.body_start_urls := Some (u :: start);
                          WebCrawler.body_allowed_domains := Some allowed |}) |} s1 =
      (s2, Returned {| status := "finished"; message := None;
                       results :=
                         Some (map (page_result h)
                                 (responses (scrapy env (u :: start) allowed))) |}).
Proof.
  intros El Ew Ec Er.
  pose proof (run_crawler_process_completes h (scrapy env) (u :: start) allowed
                [] Ec Er) as Hrun.
  destruct s as [ex mg n evs].
  unfold WebCrawler.refresh_resources, WebCrawler.crawl, WebCrawler.init_resources,
    WebCrawler.run_crawler, executor_shutdown, manager_shutdown,
    manager_list, run_in_executor, Main.init_resources,
    Main.new_ProcessPoolExecutor, Main.new_Manager.
  rewrite El, Ew.
  destruct ex as [p|]; destruct mg as [m|];
    destruct (executor_shutdown_raises senv);
    destruct (manager_shutdown_raises senv);
    destruct (version_ge_3_11 h);
    cbn -[CrawlerService.run_crawler_process];
    eexists _, _, _; (split; [reflexivity |]); (split; [reflexivity |]);
    cbn -[CrawlerService.run_crawler_process]; rewrite Hrun; reflexivity.
Qed.

(** The single file checks [start_urls] before it allocates the shared
    list: an empty or missing [start_urls] gives an error dict and no
    dispatch. *)
Lemma web_crawler_rejects_empty_start_urls h env allowed s p m :
  Main.executor s = Some p -> Main.manager s = Some m ->
  WebCrawler.crawl h env
    {| WebCrawler.json :=
         Returned (WebCrawler.JsonObject
                     {| WebCrawler.body_start_urls := Some [];
                        WebCrawler.body_allowed_domains := allowed |}) |} s =
    (s, Returned (WebCrawler.error "start_urls must be provided.")).
Proof.
  destruct s as [ex mg n evs]. simpl. intros -> ->. reflexivity.
Qed.

(** ** Text extraction *)

Lemma flat_map_flat_map {A B C} (f : A -> list B) (g : B -> list C) l :
  flat_map g (flat_map f l) = flat_map (fun x => flat_map g (f x)) l.
Proof.
  induction l as [| x l IH]; simpl; [reflexivity |].
  rewrite flat_map_app, IH. reflexivity.
Qed.

Lemma flat_map_ext_Forall {A B} (f g : A -> list B) l :
  Forall (fun x => f x = g x) l -> flat_map f l = flat_map g l.
Proof.
  induction 1 as [| x l Hx _ IH]; simpl; [reflexivity |].
  rewrite Hx, IH. reflexivity.
Qed.

Lemma existsb_snoc (n : string) names a :
  existsb (String.eqb n) (names ++ [a]) =
  existsb (String.eqb n) names || String.eqb n a.
Proof.
  rewrite existsb_app. simpl. rewrite orb_false_r. reflexivity.
Qed.

(** Decomposing one more name after a pruning is a pruning. *)
Lemma decompose_in_prune_in names a e :
  flat_map (decompose_in a) (prune_in names e) = prune_in (names ++ [a]) e.
Proof.
  induction e as [n cs IH | s | s] using PageElement_tree_ind; simpl; try reflexivity.
  rewrite existsb_snoc.
  destruct (existsb (String.eqb n) names); simpl; [reflexivity |].
  destruct (String.eqb n a); simpl; [reflexivity |].
  rewrite flat_map_flat_map, (flat_map_ext_Forall _ _ cs IH). reflexivity.
Qed.

Lemma decompose_all_prune names a soup :
  decompose_all a (prune names soup) = prune (names ++ [a]) soup.
Proof.
  unfold decompose_all, prune. rewrite flat_map_flat_map.
  apply flat_map_ext_Forall, Forall_forall. intros e _.
  apply decompose_in_prune_in.
Qed.

Lemma prune_in_nil e : prune_in [] e = [e].
Proof.
  induction e as [n cs IH | s | s] using PageElement_tree_ind; simpl; try reflexivity.
  f_equal. f_equal.
  induction IH as [| x l Hx _ IHl]; simpl; [reflexivity |].
  rewrite Hx, IHl. reflexivity.
Qed.

Lemma prune_nil soup : prune [] soup = soup.
Proof.
  unfold prune. induction soup as [| e soup IH]; simpl; [reflexivity |].
  rewrite prune_in_nil, IH. reflexivity.
Qed.

(** The loop over the tag names prunes them all. *)
Lemma decompose_loop_prunes tags : forall names soup,
  fold_left (fun soup tag => decompose_all tag soup) tags (prune names soup) =
  prune (names ++ tags) soup.
Proof.
  induction tags as [| a tags IH]; intros names soup; simpl.
  - rewrite app_nil_r. reflexivity.
  - rewrite decompose_all_prune, IH, <- app_assoc. reflexivity.
Qed.

Lemma existsb_eqb_false (n : string) names tag :
  existsb (String.eqb n) names = false -> In tag names -> String.eqb n tag = false.
Proof.
  intros H Hin. destruct (String.eqb n tag) eqn:E; [| reflexivity].
  rewrite <- H. symmetry. apply existsb_exists. exists tag. auto.
Qed.

(** No element with a pruned name is left, at any depth. *)
Lemma find_all_in_prune_in names tag e :
  In tag names -> flat_map (find_all_in tag) (prune_in names e) = [].
Proof.
  intros Hin. induction e as [n cs IH | s | s] using PageElement_tree_ind; simpl; try reflexivity.
  destruct (existsb (String.eqb n) names) eqn:E; simpl; [reflexivity |].
  rewrite (existsb_eqb_false n names tag E Hin). simpl. rewrite app_nil_r.
  rewrite flat_map_flat_map.
  induction IH as [| x l Hx _ IHl]; simpl; [reflexivity |].
  rewrite Hx, IHl. reflexivity.
Qed.

Lemma find_all_prune names tag soup :
  In tag names -> find_all tag (prune names soup) = [].
Proof.
  intros Hin. unfold find_all, prune. rewrite flat_map_flat_map.
  induction soup as [| e soup IH]; simpl; [reflexivity |].
  rewrite (find_all_in_prune_in names tag e Hin), IH. reflexivity.
Qed.

(** The strings [get_text] collects after the pruning are the strings
    outside the pruned elements. *)
Lemma all_strings_in_prune_in names e :
  flat_map (all_strings_in true) (prune_in names e) = strings_outside_in names e.
Proof.
  induction e as [n cs IH | s | s] using PageElement_tree_ind; simpl.
  - destruct (existsb (String.eqb n) names); simpl; [reflexivity |].
    rewrite app_nil_r, flat_map_flat_map.
    apply flat_map_ext_Forall. exact IH.
  - rewrite app_nil_r. reflexivity.
  - reflexivity.
Qed.

Lemma all_strings_prune names soup :
  all_strings true (prune names soup) = flat_map (strings_outside_in names) soup.
Proof.
  unfold all_strings, prune. rewrite flat_map_flat_map.
  apply flat_map_ext_Forall, Forall_forall. intros e _.
  apply all_strings_in_prune_in.
Qed.

(** *** Lines *)

Lemma splitlines_one_line line :
  line <> [] -> no_linebreak line -> splitlines line = [line].
Proof.
  unfold no_linebreak.
  induction line as [| c rest IH]; intros Hne Hlb; [contradiction |].
  simpl in Hlb. apply andb_true_iff in Hlb. destruct Hlb as [Hc Hrest].
  apply negb_true_iff in Hc. simpl. rewrite Hc.
  destruct rest as [| c' rest']; [reflexivity |].
  rewrite IH; [reflexivity | discriminate | exact Hrest].
Qed.

Lemma splitlines_line_then_newline line rest :
  no_linebreak line -> splitlines (line ++ LF :: rest) = line :: splitlines rest.
Proof.
  unfold no_linebreak.
  induction line as [| c line IH]; intros Hlb.
  - simpl. destruct rest; reflexivity.
  - simpl in Hlb. apply andb_true_iff in Hlb. destruct Hlb as [Hc Hline].
    apply negb_true_iff in Hc.
    change ((c :: line) ++ LF :: rest) with (c :: (line ++ LF :: rest)).
    cbn [splitlines]. rewrite Hc, (IH Hline). reflexivity.
Qed.

(** Splitting undoes joining with ["\n"], for non-empty lines without
    line boundary. *)
Lemma splitlines_join_newline lines :
  Forall (fun line => line <> [] /\ no_linebreak line) lines ->
  splitlines (join newline lines) = lines.
Proof.
  induction 1 as [| line lines [Hne Hlb] Hall IH]; [reflexivity |].
  destruct lines as [| line2 lines].
  - simpl. apply splitlines_one_line; assumption.
  - change (join newline (line :: line2 :: lines))
      with (line ++ LF :: join newline (line2 :: lines)).
    rewrite (splitlines_line_then_newline line _ Hlb), IH. reflexivity.
Qed.

Lemma splitlines_lines_bounded n : forall s,
  List.length s <= n -> Forall no_linebreak (splitlines s).
Proof.
  induction n as [| n IH]; intros s Hlen.
  - destruct s; [constructor | simpl in Hlen; lia].
  - destruct s as [| c rest]; [constructor |].
    simpl in Hlen. cbn [splitlines].
    destruct (is_linebreak c) eqn:Hc.
    + constructor; [reflexivity |].
      destruct rest as [| c' rest']; [constructor |].
      destruct ((c =? CR) && (c' =? LF))%N; apply IH; simpl in *; lia.
    + assert (Hrest : Forall no_linebreak (splitlines rest)) by (apply IH; lia).
      destruct (splitlines rest) as [| line lines].
      * constructor; [| constructor]. unfold no_linebreak. simpl. rewrite Hc.
        reflexivity.
      * inversion Hrest as [| ? ? Hline Hlines]; subst.
        constructor; [| exact Hlines].
        unfold no_linebreak in *. simpl. rewrite Hc, Hline. reflexivity.
Qed.

(** No line produced by [splitlines] holds a line boundary. *)
Lemma splitlines_no_linebreak s : Forall no_linebreak (splitlines s).
Proof. apply (splitlines_lines_bounded (List.length s)). lia. Qed.

(** The long lines of a text, joined and split again, are the long lines. *)
Lemma long_lines_round_trip text :
  splitlines
    (join newline (filter (fun line => 30 <? List.length line) (splitlines text))) =
  filter (fun line => 30 <? List.length line) (splitlines text).
Proof.
  apply splitlines_join_newline, Forall_forall. intros line Hin.
  apply filter_In in Hin. destruct Hin as [Hin Hlen].
  split.
  - intros ->. discriminate Hlen.
  - pose proof (splitlines_no_linebreak text) as H.
    rewrite Forall_forall in H. apply H. exact Hin.
Qed.

(** C7.  [extract_important_text_bs4] removes every script, style, nav,
    footer, aside, form, s and a element with all its content (none is
    left in the tree, and the strings collected are those outside such
    elements), splits the remaining visible text into lines, and returns
    exactly the lines longer than 30 characters, joined by newlines: the
    lines of the output are those lines, in order.  For a document with a
    script block, a paragraph of 40 characters and a paragraph of 10, the
    output is the 40-character line: neither the script content (54
    characters, so not dropped for its length) nor the short line is in
    it. *)
Theorem extract_important_text_bs4_policy (h : Host) (html_content : str) :
  let soup := BeautifulSoup_lxml h html_content in
  let cleaned :=
    fold_left (fun soup tag => decompose_all tag soup)
      CrawlerService.unwanted_tags soup in
  let out := CrawlerService.extract_important_text_bs4 h html_content in
  (forall tag, In tag CrawlerService.unwanted_tags -> find_all tag cleaned = []) /\
  all_strings true cleaned = visible_strings soup /\
  out = join newline
          (filter (fun line => 30 <? List.length line) (visible_lines soup)) /\
  splitlines out = filter (fun line => 30 <? List.length line) (visible_lines soup) /\
  (forall line, In line (splitlines out) <->
                In line (visible_lines soup) /\ 30 < List.length line) /\
  (soup = example_soup ->
   List.length (lit "This paragraph has exactly forty chars!!") = 40 /\
   List.length (lit "short text") = 10 /\
   List.length (lit "var tracking = 'abcdefghijklmnopqrstuvwxyz0123456789';") = 54 /\
   out = lit "This paragraph has exactly forty chars!!" /\
   splitlines out = [lit "This paragraph has exactly forty chars!!"]).
Proof.
  intros soup cleaned out.
  assert (Hc : cleaned = prune CrawlerService.unwanted_tags soup).
  { unfold cleaned. rewrite <- (prune_nil soup) at 1.
    rewrite decompose_loop_prunes. reflexivity. }
  assert (Hs : all_strings true cleaned = visible_strings soup).
  { rewrite Hc. apply all_strings_prune. }
  assert (Ho : out = join newline
                       (filter (fun line => 30 <? List.length line) (visible_lines soup))).
  { unfold out, CrawlerService.extract_important_text_bs4, visible_lines, get_text.
    fold soup. fold cleaned. rewrite Hs. reflexivity. }
  assert (Hl : splitlines out =
               filter (fun line => 30 <? List.length line) (visible_lines soup)).
  { rewrite Ho. apply long_lines_round_trip. }
  split; [| split; [exact Hs | split; [exact Ho | split; [exact Hl | split]]]].
  - intros tag Hin. rewrite Hc. apply find_all_prune. exact Hin.
  - intros line. rewrite Hl, filter_In, Nat.ltb_lt. reflexivity.
  - intros E. rewrite Hl, Ho, E. vm_compute. repeat split; reflexivity.
Qed.

(** C7 on the example document. *)
Lemma extract_important_text_bs4_policy_witness :
  CrawlerService.extract_important_text_bs4 example_host example_html =
    lit "This paragraph has exactly forty chars!!" /\
  splitlines (CrawlerService.extract_important_text_bs4 example_host example_html) =
    [lit "This paragraph has exactly forty chars!!"].
Proof.
  destruct (extract_important_text_bs4_policy example_host example_html)
    as (_ & _ & _ & _ & _ & H).
  destruct (H eq_refl) as (_ & _ & _ & H1 & H2).
  split; [exact H1 | exact H2].
Defined.

(** * Further properties of the code *)

(** ** init_resources and lifespan *)



(** X1.  When [init_resources] returns normally, both references are set:
    either they were both set already and nothing changed, or both were
    built in this call. *)
Theorem init_resources_returns_both_live
    (h : Host) (env : InitEnv) (s s' : Main.State) :
  Main.init_resources h env s = (s', Returned tt) ->
  Main.both_live s' /\
  (s' = s \/
   (Main.executor s' = Some (pool_built h (Main.next_id s)) /\
    Main.manager s' = Some {| manager_id := S (Main.next_id s) |})).
Proof.
  intros H.
  destruct (init_resources_cases s) as [(p & m & Ep' & Em') | Hs].
  - rewrite (init_resources_returns_early h env s p m Ep' Em') in H.
    injection H as <-. split; [| left; reflexivity].
    split; [rewrite Ep' | rewrite Em']; discriminate.
  - destruct (ProcessPoolExecutor_raises env) as [e1|] eqn:Ep.
    + rewrite (init_resources_pool_raises h env s e1 Hs Ep) in H. discriminate H.
    + destruct (Manager_raises env) as [e1|] eqn:Em.
      * rewrite (init_resources_manager_raises h env s e1 Hs Ep Em) in H.
        discriminate H.
      * rewrite (init_resources_constructs h env s Hs Ep Em) in H.
        injection H as <-. simpl.
        split; [split; discriminate | right; split; reflexivity].
Qed.

(** X1 on a start-up from the freshly loaded module. *)
Lemma init_resources_returns_both_live_witness :
  Main.both_live started /\
  (started = Main.loaded \/
   (Main.executor started = Some (pool_built example_host (Main.next_id Main.loaded)) /\
    Main.manager started = Some {| manager_id := S (Main.next_id Main.loaded) |})).
Proof.
  exact (init_resources_returns_both_live example_host constructors_return
           Main.loaded started eq_refl).
Defined.

(** X2.  Whatever the constructors do, [init_resources] never unsets a
    reference that was set, shuts nothing down and dispatches nothing. *)
Theorem init_resources_never_unsets (h : Host) (env : InitEnv) (s : Main.State) :
  (Main.executor s <> None ->
   Main.executor (fst (Main.init_resources h env s)) <> None) /\
  (Main.manager s <> None ->
   Main.manager (fst (Main.init_resources h env s)) <> None) /\
  filter is_shutdown (Main.events (fst (Main.init_resources h env s)))
    = filter is_shutdown (Main.events s) /\
  filter is_dispatch (Main.events (fst (Main.init_resources h env s)))
    = filter is_dispatch (Main.events s).
Proof.
  destruct (init_resources_cases s) as [(p & m & Ep' & Em') | Hs].
  - rewrite (init_resources_returns_early h env s p m Ep' Em'). simpl. auto.
  - destruct (ProcessPoolExecutor_raises env) as [e1|] eqn:Ep.
    + rewrite (init_resources_pool_raises h env s e1 Hs Ep). simpl. auto.
    + destruct (Manager_raises env) as [e1|] eqn:Em.
      * rewrite (init_resources_manager_raises h env s e1 Hs Ep Em). simpl.
        rewrite !filter_app. simpl. rewrite !app_nil_r.
        repeat split; auto. discriminate.
      * rewrite (init_resources_constructs h env s Hs Ep Em). simpl.
        rewrite !filter_app. simpl. rewrite !app_nil_r.
        repeat split; discriminate.
Qed.

(** X2 on the half-built state, with a coordinator construction that
    raises again. *)
Lemma init_resources_never_unsets_witness :
  Main.executor half_started <> None /\
  Main.executor
    (fst (Main.init_resources example_host manager_construction_fails half_started))
    <> None.
Proof.
  assert (H : Main.executor half_started <> None) by (simpl; discriminate).
  split; [exact H |].
  exact (proj1 (init_resources_never_unsets example_host
                  manager_construction_fails half_started) H).
Defined.

(** X3.  When the constructors and the shutdown calls return, the
    shutdown part of [lifespan] shuts down exactly the pool and the
    coordinator the start-up part left in the two names, the pool first
    and waiting for it ([wait=True], no cancelling), and leaves both names
    set to the objects it has shut down. *)
Theorem lifespan_shuts_down_what_startup_left
    (h : Host) (env : InitEnv) (senv : ShutdownEnv) (s : Main.State) :
  ProcessPoolExecutor_raises env = None ->
  Manager_raises env = None ->
  executor_shutdown_raises senv = None ->
  manager_shutdown_raises senv = None ->
  exists p m s1 s2,
    lifespan_startup h env s = (s1, Returned tt) /\
    Main.executor s1 = Some p /\ Main.manager s1 = Some m /\
    lifespan_shutdown senv s1 = (s2, Returned tt) /\
    Main.events s2 =
      Main.events s1 ++ [ExecutorShutdown p true false; ManagerShutdown m] /\
    Main.executor s2 = Some p /\ Main.manager s2 = Some m.
Proof.
  intros Hp Hm Hse Hsm.
  assert (Hdown : forall t p m,
            Main.executor t = Some p -> Main.manager t = Some m ->
            lifespan_shutdown senv t =
              ({| Main.executor := Some p; Main.manager := Some m;
                  Main.next_id := Main.next_id t;
                  Main.events :=
                    Main.events t ++ [ExecutorShutdown p true false; ManagerShutdown m] |},
               Returned tt)).
  { intros [ex mg n evs] p m. simpl. intros -> ->.
    unfold lifespan_shutdown, executor_shutdown, manager_shutdown.
    rewrite Hse, Hsm. cbn. unfold Main.emit, modify. simpl.
    rewrite <- app_assoc. reflexivity. }
  unfold lifespan_startup.
  destruct (init_resources_cases s) as [(p & m & Ep' & Em') | Hs].
  - exists p, m, s. eexists.
    rewrite (init_resources_returns_early h env s p m Ep' Em').
    rewrite (Hdown s p m Ep' Em'). simpl. repeat split; assumption.
  - rewrite (init_resources_constructs h env s Hs Hp Hm).
    set (s1 := {| Main.executor := Some (pool_built h (Main.next_id s));
                  Main.manager := Some {| manager_id := S (Main.next_id s) |};
                  Main.next_id := S (S (Main.next_id s));
                  Main.events := _ |}).
    exists (pool_built h (Main.next_id s)), {| manager_id := S (Main.next_id s) |}, s1.
    eexists. split; [reflexivity |].
    split; [reflexivity |]. split; [reflexivity |].
    rewrite (Hdown s1 _ _ eq_refl eq_refl). simpl. repeat split.
Qed.

(** X3 on the freshly loaded module. *)
Lemma lifespan_shuts_down_what_startup_left_witness :
  exists p m s1 s2,
    lifespan_startup example_host constructors_return Main.loaded = (s1, Returned tt) /\
    Main.executor s1 = Some p /\ Main.manager s1 = Some m /\
    lifespan_shutdown shutdowns_return s1 = (s2, Returned tt) /\
    Main.events s2 =
      Main.events s1 ++ [ExecutorShutdown p true false; ManagerShutdown m] /\
    Main.executor s2 = Some p /\ Main.manager s2 = Some m.
Proof.
  exact (lifespan_shuts_down_what_startup_left example_host constructors_return
           shutdowns_return Main.loaded eq_refl eq_refl eq_refl eq_refl).
Defined.


(** ** The service module and its endpoints *)

Lemma post_crawl_state h env request s :
  fst (CrawlerController.post_crawl h env request s) =
  fst (CrawlerService.crawl_service h env (CrawlerModels.start_urls request)
         (CrawlerModels.allowed_domains request) s).
Proof.
  unfold CrawlerController.post_crawl, CrawlerController.crawl_endpoint, bind.
  destruct (CrawlerService.crawl_service h env (CrawlerModels.start_urls request)
              (CrawlerModels.allowed_domains request) s) as [s' [d | e]];
    simpl; [| reflexivity].
  destruct (CrawlerModels.validate d); reflexivity.
Qed.

Lemma refresh_returns_refresh_dict h senv ienv s :
  exists s1 d,
    CrawlerService.refresh_resources_service h senv ienv s = (s1, Returned d) /\
    (d = CrawlerService.refreshed \/ exists e, d = CrawlerService.refresh_failed e).
Proof.
  destruct s as [ms sex smg].
  unfold CrawlerService.refresh_resources_service.
  set (step3 := try_except (bind (CrawlerService.init_resources h ienv) _) _).
  assert (H3 : forall t, exists s1 d, step3 t = (s1, Returned d) /\
             (d = CrawlerService.refreshed \/
              exists e, d = CrawlerService.refresh_failed e)).
  { intros t. subst step3. unfold try_except, bind.
    destruct (CrawlerService.init_resources h ienv t) as [t' [[] | e]];
      eexists _, _; (split; [reflexivity |]); [left | right; exists e]; reflexivity. }
  unfold executor_shutdown, manager_shutdown.
  destruct sex as [p|]; destruct smg as [m|];
    destruct (executor_shutdown_raises senv) as [e1|];
    destruct (manager_shutdown_raises senv) as [e2|]; cbn; apply H3.
Qed.

Lemma post_refresh_is_refresh h senv ienv s :
  RefreshEndpoint.post_refresh_resources h senv ienv s =
  CrawlerService.refresh_resources_service h senv ienv s.
Proof.
  unfold RefreshEndpoint.post_refresh_resources,
    RefreshEndpoint.refresh_resources_endpoint, bind.
  destruct (refresh_returns_refresh_dict h senv ienv s) as (s1 & d & -> & Hd).
  destruct Hd as [-> | [e ->]]; reflexivity.
Qed.

Lemma crawl_service_names h env start allowed s :
  CrawlerService.executor (fst (CrawlerService.crawl_service h env start allowed s))
    = CrawlerService.executor s /\
  CrawlerService.manager (fst (CrawlerService.crawl_service h env start allowed s))
    = CrawlerService.manager s.
Proof.
  destruct (CrawlerService.executor s) as [p|] eqn:Ep;
    [destruct (CrawlerService.manager s) as [m|] eqn:Em |].
  - rewrite (crawl_service_live h env start allowed s p m Ep Em).
    destruct (list_raises env) as [e|] eqn:El.
    + rewrite (submit_list_raises h env p m start allowed s e El). simpl. auto.
    + rewrite (submit_dispatches h env p m start allowed s El). simpl. auto.
  - rewrite (crawl_service_unset h env start allowed s (or_intror Em)).
    rewrite service_init_resources. simpl. auto.
  - rewrite (crawl_service_unset h env start allowed s (or_introl Ep)).
    rewrite service_init_resources. simpl. auto.
Qed.

Lemma serve_unset h c s :
  CrawlerService.executor s = None \/ CrawlerService.manager s = None ->
  dispatches (serve h s c) = dispatches s /\
  (CrawlerService.executor (serve h s c) = None \/
   CrawlerService.manager (serve h s c) = None).
Proof.
  intros Hs. destruct c as [env request | senv ienv]; simpl.
  - rewrite post_crawl_state.
    destruct (crawl_service_names h env (CrawlerModels.start_urls request)
                (CrawlerModels.allowed_domains request) s) as [He Hm].
    rewrite He, Hm. split; [| exact Hs].
    rewrite (crawl_service_unset h env _ _ s Hs). simpl.
    apply service_init_resources_dispatches.
  - rewrite post_refresh_is_refresh.
    destruct (refresh_unsets_service_names h senv ienv s)
      as (s1 & d & -> & He & Hm & Hd).
    simpl. auto.
Qed.

Lemma serve_all_unset h calls : forall s,
  CrawlerService.executor s = None \/ CrawlerService.manager s = None ->
  dispatches (serve_all h calls s) = dispatches s.
Proof.
  induction calls as [| c calls IH]; intros s Hs; [reflexivity |].
  destruct (serve_unset h c s Hs) as [Hd Hs'].
  unfold serve_all in *. simpl. rewrite (IH _ Hs'). exact Hd.
Qed.

(** X5.  [crawl_service] never assigns the module's names [executor] and
    [manager]: whatever the call does -- dispatch, re-initialisation of
    [app.main], error or exception -- they are after the call what they
    were before. *)
Theorem crawl_service_keeps_its_names
    (h : Host) (env : SubmitEnv) (start_urls allowed_domains : list string)
    (s : CrawlerService.State) :
  CrawlerService.executor
    (fst (CrawlerService.crawl_service h env start_urls allowed_domains s))
    = CrawlerService.executor s /\
  CrawlerService.manager
    (fst (CrawlerService.crawl_service h env start_urls allowed_domains s))
    = CrawlerService.manager s.
Proof. apply crawl_service_names. Qed.

(** X6.  Once one of the service module's names is unset -- because the
    module was imported before start-up, or by any refresh -- no sequence
    of [/crawl] and [/refresh_resources] requests ever dispatches a job
    again. *)
Theorem unset_service_never_dispatches
    (h : Host) (calls : list ServiceCall) (s : CrawlerService.State)
    (senv : ShutdownEnv) (ienv : InitEnv) :
  (CrawlerService.executor s = None \/ CrawlerService.manager s = None ->
   dispatches (serve_all h calls s) = dispatches s) /\
  dispatches (serve_all h (CallRefresh senv ienv :: calls) s) = dispatches s.
Proof.
  split; [apply serve_all_unset |].
  unfold serve_all. simpl. rewrite post_refresh_is_refresh.
  destruct (refresh_unsets_service_names h senv ienv s)
    as (s1 & d & E & He & Hm & Hd).
  rewrite E. simpl. rewrite <- Hd.
  apply (serve_all_unset h calls s1). left. exact He.
Qed.

(** X6 on the module imported before start-up: two crawls around a
    refresh dispatch nothing. *)
Lemma unset_service_never_dispatches_witness :
  dispatches
    (serve_all example_host
       [CallCrawl job_completes example_request;
        CallRefresh shutdowns_return constructors_return;
        CallCrawl job_completes example_request] service_unset)
    = dispatches service_unset.
Proof.
  exact (proj1 (unset_service_never_dispatches example_host
                  [CallCrawl job_completes example_request;
                   CallRefresh shutdowns_return constructors_return;
                   CallCrawl job_completes example_request]
                  service_unset shutdowns_return constructors_return)
           (or_introl eq_refl)).
Defined.

(** X7.  The two calls [crawl_service] makes outside its [try] let their
    exception out of the endpoint: a constructor that raises in
    [init_resources] when the module's names and those of [app.main] are
    unset, and [manager.list()] when the names are set.  In both cases
    no job is dispatched. *)
Theorem crawl_exceptions_outside_try_reach_the_caller
    (h : Host) (env : SubmitEnv) (request : CrawlerModels.CrawlRequest)
    (s : CrawlerService.State) (e : exn) :
  (CrawlerService.executor s = None \/ CrawlerService.manager s = None ->
   Main.executor (CrawlerService.main s) = None \/
   Main.manager (CrawlerService.main s) = None ->
   ProcessPoolExecutor_raises (init_env env) = Some e \/
   (ProcessPoolExecutor_raises (init_env env) = None /\
    Manager_raises (init_env env) = Some e) ->
   snd (CrawlerController.post_crawl h env request s) = Raised e /\
   dispatches (fst (CrawlerController.post_crawl h env request s)) = dispatches s) /\
  (forall p m,
     CrawlerService.executor s = Some p -> CrawlerService.manager s = Some m ->
     list_raises env = Some e ->
     CrawlerController.post_crawl h env request s = (s, Raised e)).
Proof.
  split.
  - intros Hs Hmain Hraise. split.
    + unfold CrawlerController.post_crawl, CrawlerController.crawl_endpoint, bind.
      rewrite (crawl_service_unset h env _ _ s Hs).
      rewrite service_init_resources. simpl.
      destruct Hraise as [Hp | [Hp Hm]].
      * rewrite (init_resources_pool_raises h (init_env env) _ e Hmain Hp).
        reflexivity.
      * rewrite (init_resources_manager_raises h (init_env env) _ e Hmain Hp Hm).
        reflexivity.
    + rewrite post_crawl_state, (crawl_service_unset h env _ _ s Hs). simpl.
      apply service_init_resources_dispatches.
  - intros p m Ep Em El.
    unfold CrawlerController.post_crawl, CrawlerController.crawl_endpoint, bind.
    rewrite (crawl_service_live h env _ _ s p m Ep Em).
    rewrite (submit_list_raises h env p m _ _ s e El). reflexivity.
Qed.

(** X7 when [manager.list()] cannot reach the coordinator. *)
Lemma crawl_exceptions_outside_try_reach_the_caller_witness :
  CrawlerController.post_crawl example_host list_fails example_request service_live
    = (service_live,
       Raised (Exception "ConnectionRefusedError: [Errno 111] Connection refused")).
Proof.
  exact (proj2 (crawl_exceptions_outside_try_reach_the_caller example_host
                  list_fails example_request service_live
                  (Exception "ConnectionRefusedError: [Errno 111] Connection refused"))
           (pool_built example_host 0) {| manager_id := 1 |}
           eq_refl eq_refl eq_refl).
Defined.

Lemma init_resources_outcome h env s :
  snd (Main.init_resources h env s) =
  if main_live s then Returned tt else construction_outcome env.
Proof.
  unfold main_live, construction_outcome.
  destruct (init_resources_cases s) as [(p & m & Ep' & Em') | Hs].
  - rewrite (init_resources_returns_early h env s p m Ep' Em'), Ep', Em'. reflexivity.
  - assert (E : negb (is_None (Main.executor s)) && negb (is_None (Main.manager s))
                = false)
      by (destruct Hs as [-> | ->]; [| destruct (Main.executor s)]; reflexivity).
    rewrite E.
    destruct (ProcessPoolExecutor_raises env) as [e1|] eqn:Ep.
    + rewrite (init_resources_pool_raises h env s e1 Hs Ep). reflexivity.
    + destruct (Manager_raises env) as [e1|] eqn:Em.
      * rewrite (init_resources_manager_raises h env s e1 Hs Ep Em). reflexivity.
      * rewrite (init_resources_constructs h env s Hs Ep Em). reflexivity.
Qed.

(** X8.  [refresh_resources_service] never raises.  It answers
    ["refreshed_and_restarted"] when the names of [app.main] are both set
    -- then no constructor is called at all -- or when both constructors
    return, and otherwise the error dict whose message ends with the text
    of the exception of the first constructor that raised. *)
Theorem refresh_resources_service_outcome
    (h : Host) (senv : ShutdownEnv) (ienv : InitEnv) (s : CrawlerService.State) :
  snd (CrawlerService.refresh_resources_service h senv ienv s) =
  Returned
    (if main_live (CrawlerService.main s) then CrawlerService.refreshed
     else match construction_outcome ienv with
          | Returned _ => CrawlerService.refreshed
          | Raised e =>
              {| status := "error";
                 message :=
                   Some ("Failed to re-initialize resources: " ++ exn_str e)%string;
                 results := None |}
          end).
Proof.
  destruct s as [[ex mg n evs] sex smg].
  unfold CrawlerService.refresh_resources_service.
  set (step3 := try_except (bind (CrawlerService.init_resources h ienv) _) _).
  assert (H3 : forall evs' t,
            CrawlerService.main t =
              {| Main.executor := ex; Main.manager := mg;
                 Main.next_id := n; Main.events := evs' |} ->
            snd (step3 t) =
            Returned
              (if main_live {| Main.executor := ex; Main.manager := mg;
                               Main.next_id := n; Main.events := evs |}
               then CrawlerService.refreshed
               else match construction_outcome ienv with
                    | Returned _ => CrawlerService.refreshed
                    | Raised e => CrawlerService.refresh_failed e
                    end)).
  { intros evs' t Ht. subst step3. unfold try_except, bind.
    pose proof (init_resources_outcome h ienv (CrawlerService.main t)) as Ho.
    rewrite service_init_resources.
    rewrite Ht in Ho at 2. unfold main_live in *. simpl in Ho.
    destruct (Main.init_resources h ienv (CrawlerService.main t)) as [ms' [[] | e]];
      simpl in *; unfold main_live; simpl;
      destruct (negb (is_None ex) && negb (is_None mg));
      try discriminate Ho; try reflexivity;
      rewrite <- Ho; reflexivity. }
  unfold executor_shutdown, manager_shutdown.
  destruct sex as [p|]; destruct smg as [m|];
    destruct (executor_shutdown_raises senv) as [e1|];
    destruct (manager_shutdown_raises senv) as [e2|]; cbn;
    match goal with
    | |- snd (step3 ?t) = _ => apply (H3 (Main.events (CrawlerService.main t)) t)
    end; reflexivity.
Qed.

(** X9.  With both names of [app.main] set, a refresh builds nothing:
    it answers ["refreshed_and_restarted"], but no pool and no coordinator
    is constructed and [app.main] keeps the objects it had.  When the
    service module held that same pool, the pool [app.main] still refers
    to is the one the refresh has just shut down with [wait=False,
    cancel_futures=True]. *)
Theorem refresh_resources_service_rebuilds_nothing
    (h : Host) (senv : ShutdownEnv) (ienv : InitEnv) (s : CrawlerService.State)
    (p : ProcessPoolExecutor) (m : SyncManager) :
  Main.executor (CrawlerService.main s) = Some p ->
  Main.manager (CrawlerService.main s) = Some m ->
  exists s1,
    CrawlerService.refresh_resources_service h senv ienv s
      = (s1, Returned CrawlerService.refreshed) /\
    Main.executor (CrawlerService.main s1) = Some p /\
    Main.manager (CrawlerService.main s1) = Some m /\
    constructions (CrawlerService.main s1) = constructions (CrawlerService.main s) /\
    (CrawlerService.executor s = Some p ->
     executor_shutdown_raises senv = None ->
     In (ExecutorShutdown p false true) (Main.events (CrawlerService.main s1))).
Proof.
  destruct s as [[ex mg n evs] sex smg]. simpl. intros -> ->.
  unfold CrawlerService.refresh_resources_service, executor_shutdown, manager_shutdown.
  destruct sex as [p0|]; destruct smg as [m0|];
    destruct (executor_shutdown_raises senv) as [e1|];
    destruct (manager_shutdown_raises senv) as [e2|]; cbn;
    eexists; (split; [reflexivity |]); simpl;
    (split; [reflexivity |]); (split; [reflexivity |]);
    unfold constructions; simpl; rewrite ?filter_app; simpl; rewrite ?app_nil_r;
    (split; [reflexivity |]); intros E1 E2; try discriminate;
    injection E1 as ->; rewrite ?in_app_iff; simpl; auto.
Qed.

(** X9 on the service module loaded after start-up. *)
Lemma refresh_resources_service_rebuilds_nothing_witness :
  exists s1,
    CrawlerService.refresh_resources_service example_host shutdowns_return
      constructors_return service_live
      = (s1, Returned CrawlerService.refreshed) /\
    Main.executor (CrawlerService.main s1) = Some (pool_built example_host 0) /\
    Main.manager (CrawlerService.main s1) = Some {| manager_id := 1 |} /\
    constructions (CrawlerService.main s1)
      = constructions (CrawlerService.main service_live) /\
    (CrawlerService.executor service_live = Some (pool_built example_host 0) ->
     executor_shutdown_raises shutdowns_return = None ->
     In (ExecutorShutdown (pool_built example_host 0) false true)
        (Main.events (CrawlerService.main s1))).
Proof.
  exact (refresh_resources_service_rebuilds_nothing example_host shutdowns_return
           constructors_return service_live (pool_built example_host 0)
           {| manager_id := 1 |} eq_refl eq_refl).
Defined.

(** X10.  [POST /refresh_resources] sends out exactly the dict the service
    returns, state and all: every refresh dict has a status and a message,
    so the validation against [RefreshResourcesResponse] never fails and
    drops nothing. *)
Theorem post_refresh_resources_delivers_the_dict
    (h : Host) (senv : ShutdownEnv) (ienv : InitEnv) (s : CrawlerService.State) :
  RefreshEndpoint.post_refresh_resources h senv ienv s =
    CrawlerService.refresh_resources_service h senv ienv s /\
  exists s1 d msg,
    RefreshEndpoint.post_refresh_resources h senv ienv s = (s1, Returned d) /\
    message d = Some msg /\ results d = None.
Proof.
  split; [apply post_refresh_is_refresh |].
  rewrite post_refresh_is_refresh.
  destruct (refresh_returns_refresh_dict h senv ienv s) as (s1 & d & -> & Hd).
  destruct Hd as [-> | [e ->]]; eexists _, _, _; repeat split; reflexivity.
Qed.

(** X11.  The two response models round-trip: a model that has been
    dumped validates to itself, and a dict validates against
    [CrawlResponse] exactly when it has the ["results"] key, against
    [RefreshResourcesResponse] exactly when it has the ["message"] key. *)
Theorem response_models_round_trip :
  (forall r, CrawlerModels.validate (CrawlerModels.dump r) = Returned r) /\
  (forall r, RefreshEndpoint.validate (RefreshEndpoint.dump r) = Returned r) /\
  (forall d, (exists r, CrawlerModels.validate d = Returned r) <-> results d <> None) /\
  (forall d, (exists r, RefreshEndpoint.validate d = Returned r) <-> message d <> None).
Proof.
  repeat split.
  - intros [st rs]. unfold CrawlerModels.dump, CrawlerModels.validate. simpl.
    f_equal. f_equal.
    induction rs as [| [u t] rs IH]; simpl; [reflexivity |].
    rewrite IH. reflexivity.
  - intros [st msg]. reflexivity.
  - intros [r H]. destruct d as [st msg [rs |]]; simpl in *; discriminate.
  - intros H. destruct d as [st msg [rs |]]; simpl in *; [eauto | contradiction].
  - intros [r H]. destruct d as [st [msg |] rs]; simpl in *; discriminate.
  - intros H. destruct d as [st [msg |] rs]; simpl in *; [eauto | contradiction].
Qed.

(** ** What a crawl returns *)

Lemma extract_lines h html_content :
  exists text,
    CrawlerService.extract_important_text_bs4 h html_content =
      join newline (filter (fun line => 30 <? List.length line) (splitlines text)) /\
    splitlines (CrawlerService.extract_important_text_bs4 h html_content) =
      filter (fun line => 30 <? List.length line) (splitlines text).
Proof.
  unfold CrawlerService.extract_important_text_bs4.
  eexists. split; [reflexivity |]. apply long_lines_round_trip.
Qed.

Lemma join_at_least_first sep line lines :
  List.length line <= List.length (join sep (line :: lines)).
Proof.
  destruct lines as [| l2 lines]; simpl; [lia |].
  rewrite length_app. lia.
Qed.

Lemma awaited_results h env start allowed res :
  awaited h env start allowed = Returned res ->
  res = [] \/ res = map (page_result h) (responses (scrapy env start allowed)).
Proof.
  unfold awaited. destruct (worker_fault env) as [e|]; [discriminate |].
  destruct (CrawlerProcess_raises (scrapy env start allowed)) as [e1|] eqn:E1.
  - rewrite (run_crawler_process_constructor_raises h (scrapy env) start allowed
               [] e1 E1).
    discriminate.
  - destruct (crawl_raises (scrapy env start allowed)) as [e2|] eqn:E2.
    + rewrite (run_crawler_process_crawl_raises h (scrapy env) start allowed
                 [] e2 E1 E2).
      simpl. intros H. injection H as <-. left. reflexivity.
    + rewrite (run_crawler_process_completes h (scrapy env) start allowed [] E1 E2).
      simpl. intros H. injection H as <-. right. reflexivity.
Qed.

Lemma crawl_service_results h env start allowed s d :
  snd (CrawlerService.crawl_service h env start allowed s) = Returned d ->
  results d = Some [] \/
  results d = Some (map (page_result h) (responses (scrapy env start allowed))).
Proof.
  destruct (CrawlerService.executor s) as [p|] eqn:Ep;
    [destruct (CrawlerService.manager s) as [m|] eqn:Em |].
  - rewrite (crawl_service_live h env start allowed s p m Ep Em).
    destruct (list_raises env) as [e|] eqn:El.
    + rewrite (submit_list_raises h env p m start allowed s e El). discriminate.
    + rewrite (submit_dispatches h env p m start allowed s El). simpl.
      intros H. injection H as <-.
      destruct (awaited h env start allowed) as [res | e] eqn:Ea; simpl; [| auto].
      destruct (awaited_results h env start allowed res Ea) as [-> | ->]; auto.
  - rewrite (crawl_service_unset h env start allowed s (or_intror Em)). simpl.
    destruct (snd (CrawlerService.init_resources h (init_env env) s));
      [intros H; injection H as <-; auto | discriminate].
  - rewrite (crawl_service_unset h env start allowed s (or_introl Ep)). simpl.
    destruct (snd (CrawlerService.init_resources h (init_env env) s));
      [intros H; injection H as <-; auto | discriminate].
Qed.

(** X12.  Whatever dict [crawl_service] returns, every item of its results
    comes from a response of this job's own run -- its URL is the URL of
    that response -- and its text is made of lines longer than 30
    characters only, so that it is empty or longer than 30 characters. *)
Theorem crawl_service_result_items
    (h : Host) (env : SubmitEnv) (start_urls allowed_domains : list string)
    (s : CrawlerService.State) (d : dict) (rs : list PageResult) (r : PageResult) :
  snd (CrawlerService.crawl_service h env start_urls allowed_domains s) = Returned d ->
  results d = Some rs ->
  In r rs ->
  (exists response,
     In response (responses (scrapy env start_urls allowed_domains)) /\
     url r = response_url response /\
     html r = CrawlerService.extract_important_text_bs4 h (response_text response)) /\
  (forall line, In line (splitlines (html r)) -> 30 < List.length line) /\
  (html r = [] \/ 30 < List.length (html r)).
Proof.
  intros Hd Hrs Hin.
  assert (Hresp : exists response,
             In response (responses (scrapy env start_urls allowed_domains)) /\
             r = page_result h response).
  { destruct (crawl_service_results h env start_urls allowed_domains s d Hd)
      as [E | E]; rewrite E in Hrs; injection Hrs as <-.
    - destruct Hin.
    - apply in_map_iff in Hin. destruct Hin as (response & <- & Hin). eauto. }
  destruct Hresp as (response & Hin' & ->). simpl.
  split; [exists response; auto |].
  destruct (extract_lines h (response_text response)) as (text & Ho & Hl).
  split.
  - intros line Hline. rewrite Hl in Hline. apply filter_In in Hline.
    destruct Hline as [_ Hlen]. apply Nat.ltb_lt. exact Hlen.
  - rewrite Ho.
    destruct (filter (fun line => 30 <? List.length line) (splitlines text))
      as [| line lines] eqn:Ef; [left; reflexivity | right].
    assert (Hlen : 30 < List.length line).
    { assert (Hin1 : In line (filter (fun line => 30 <? List.length line)
                                (splitlines text)))
        by (rewrite Ef; left; reflexivity).
      apply filter_In in Hin1. apply Nat.ltb_lt. exact (proj2 Hin1). }
    pose proof (join_at_least_first newline line lines). lia.
Qed.

(** X12 on a job whose run completes. *)
Lemma crawl_service_result_items_witness :
  (exists response,
     In response (responses (scrapy job_completes ["http://example.test/a"]
                               ["example.test"])) /\
     url (page_result example_host example_response) = response_url response /\
     html (page_result example_host example_response) =
       CrawlerService.extract_important_text_bs4 example_host (response_text response)) /\
  (forall line,
     In line (splitlines (html (page_result example_host example_response))) ->
     30 < List.length line) /\
  (html (page_result example_host example_response) = [] \/
   30 < List.length (html (page_result example_host example_response))).
Proof.
  exact (crawl_service_result_items example_host job_completes
           ["http://example.test/a"] ["example.test"] service_live
           {| status := "finished"; message := None;
              results := Some [page_result example_host example_response] |}
           [page_result example_host example_response]
           (page_result example_host example_response)
           eq_refl eq_refl (or_introl eq_refl)).
Defined.

Lemma existsb_eqb_same_members (n : string) names1 names2 :
  (forall t, In t names1 <-> In t names2) ->
  existsb (String.eqb n) names1 = existsb (String.eqb n) names2.
Proof.
  intros H.
  destruct (existsb (String.eqb n) names1) eqn:E1;
    destruct (existsb (String.eqb n) names2) eqn:E2; try reflexivity.
  - apply existsb_exists in E1. destruct E1 as (t & Hin & Ht).
    rewrite <- E2. symmetry. apply existsb_exists. exists t.
    split; [apply H |]; assumption.
  - apply existsb_exists in E2. destruct E2 as (t & Hin & Ht).
    rewrite <- E1. apply existsb_exists. exists t.
    split; [apply H |]; assumption.
Qed.

Lemma prune_in_same_members names1 names2 e :
  (forall t, In t names1 <-> In t names2) ->
  prune_in names1 e = prune_in names2 e.
Proof.
  intros H. induction e as [n cs IH | s | s] using PageElement_tree_ind; simpl;
    try reflexivity.
  rewrite (existsb_eqb_same_members n names1 names2 H).
  destruct (existsb (String.eqb n) names2); [reflexivity |].
  rewrite (flat_map_ext_Forall _ _ cs IH). reflexivity.
Qed.

(** X13.  The removal loop of [extract_important_text_bs4] depends on the
    set of tag names only: listing the names in another order, or listing
    one twice, leaves the same tree. *)
Theorem decompose_loop_order_irrelevant
    (tags1 tags2 : list string) (soup : list PageElement) :
  (forall t, In t tags1 <-> In t tags2) ->
  fold_left (fun soup tag => decompose_all tag soup) tags1 soup =
  fold_left (fun soup tag => decompose_all tag soup) tags2 soup.
Proof.
  intros H.
  rewrite <- (prune_nil soup).
  rewrite !decompose_loop_prunes. simpl. unfold prune.
  apply flat_map_ext_Forall, Forall_forall. intros e _.
  apply prune_in_same_members. exact H.
Qed.

(** X13 on the list of the source, reversed and with ["a"] twice. *)
Lemma decompose_loop_order_irrelevant_witness :
  fold_left (fun soup tag => decompose_all tag soup)
    ["a"; "s"; "form"; "aside"; "footer"; "nav"; "style"; "script"; "a"] example_soup =
  fold_left (fun soup tag => decompose_all tag soup)
    CrawlerService.unwanted_tags example_soup.
Proof.
  apply (decompose_loop_order_irrelevant
           ["a"; "s"; "form"; "aside"; "footer"; "nav"; "style"; "script"; "a"]
           CrawlerService.unwanted_tags example_soup).
  intros t. unfold CrawlerService.unwanted_tags. simpl. tauto.
Defined.

(** ** web-crawler.py *)

Lemma web_crawl_live h env request s p m :
  Main.executor s = Some p -> Main.manager s = Some m ->
  WebCrawler.crawl h env request s = crawl_checked h env request p m s.
Proof.
  destruct s as [ex mg n evs]. simpl. intros -> ->. reflexivity.
Qed.

Lemma web_crawl_unset h env request s :
  Main.executor s = None \/ Main.manager s = None ->
  WebCrawler.crawl h env request s =
    match Main.init_resources h (init_env env) s with
    | (s1, Returned _) =>
        match Main.executor s1, Main.manager s1 with
        | Some p, Some m => crawl_checked h env request p m s1
        | _, _ =>
            (s1, Returned (WebCrawler.error "Server resources are not initialized. Please ensure the server started correctly."))
        end
    | (s1, Raised e) => (s1, Raised e)
    end.
Proof.
  intros Hs. unfold WebCrawler.crawl, WebCrawler.init_resources.
  unfold bind at 1. simpl.
  assert (E : is_None (Main.executor s) || is_None (Main.manager s) = true)
    by (destruct Hs as [-> | ->]; [| destruct (Main.executor s)]; reflexivity).
  rewrite E. unfold bind at 1.
  destruct (Main.init_resources h (init_env env) s) as [s1 [[] | e]];
    [| reflexivity].
  unfold bind at 1. simpl.
  destruct (Main.executor s1); destruct (Main.manager s1); reflexivity.
Qed.

(** The handler either lets the exception of [init_resources] out, or
    goes on with both globals set, the events so far being those before
    the call and the constructions of the re-initialisation. *)
Lemma web_crawl_cases h env request s :
  (exists e, WebCrawler.crawl h env request s =
               (fst (Main.init_resources h (init_env env) s), Raised e) /\
             snd (Main.init_resources h (init_env env) s) = Raised e) \/
  (exists p m s1,
     s1 = fst (Main.init_resources h (init_env env) s) /\
     Main.executor s1 = Some p /\ Main.manager s1 = Some m /\
     WebCrawler.crawl h env request s = crawl_checked h env request p m s1).
Proof.
  destruct (init_resources_cases s) as [(p & m & Ep' & Em') | Hs].
  - right. exists p, m, s.
    rewrite (init_resources_returns_early h (init_env env) s p m Ep' Em'). simpl.
    repeat split; try assumption. apply web_crawl_live; assumption.
  - rewrite (web_crawl_unset h env request s Hs).
    destruct (ProcessPoolExecutor_raises (init_env env)) as [e|] eqn:Ep.
    + left. exists e.
      rewrite (init_resources_pool_raises h (init_env env) s e Hs Ep). auto.
    + destruct (Manager_raises (init_env env)) as [e|] eqn:Em.
      * left. exists e.
        rewrite (init_resources_manager_raises h (init_env env) s e Hs Ep Em). auto.
      * right.
        rewrite (init_resources_constructs h (init_env env) s Hs Ep Em). simpl.
        eexists _, _, _. repeat split.
Qed.

(** With both globals set the handler turns the request down, or lets the
    exception of [manager.list()] out, or answers with the finished dict
    or with the crawl-failed dict. *)
Lemma crawl_checked_cases h env request p m s1 :
  (exists r, turned_down request = Some r /\
             crawl_checked h env request p m s1 = (s1, r)) \/
  (turned_down request = None /\
   ((exists e, snd (crawl_checked h env request p m s1) = Raised e) \/
    (exists res,
       snd (crawl_checked h env request p m s1) =
         Returned {| status := "finished"; message := None; results := Some res |}) \/
    (exists e,
       snd (crawl_checked h env request p m s1) =
         Returned (WebCrawler.error ("Crawl execution failed: " ++ exn_str e)%string)))).
Proof.
  unfold crawl_checked, turned_down.
  destruct (WebCrawler.json request) as [[body | kind] | e];
    [| left; eexists; split; reflexivity | left; eexists; split; reflexivity].
  cbn.
  destruct (WebCrawler.get_or_empty (WebCrawler.body_start_urls body)) as [| u us];
    [left; eexists; split; reflexivity | right; split; [reflexivity |]].
  unfold manager_list, run_in_executor.
  destruct (list_raises env) as [e|]; [left; exists e; reflexivity |].
  destruct s1 as [ex mg n evs]. cbn.
  destruct (worker_fault env) as [e|];
    [right; right; exists e; reflexivity |].
  cbn.
  destruct (WebCrawler.run_crawler h (scrapy env) (u :: us)
              (WebCrawler.get_or_empty (WebCrawler.body_allowed_domains body)) [])
    as [sink [res | e]]; cbn;
    [right; left; exists res | right; right; exists e]; reflexivity.
Qed.

(** What [turned_down] can be. *)
Lemma turned_down_cases request r :
  turned_down request = Some r ->
  (exists msg, r = Returned (WebCrawler.error msg) /\
               (msg = "start_urls must be provided." \/
                exists e, msg = ("Invalid JSON payload: " ++ exn_str e)%string)) \/
  (exists e, r = Raised e).
Proof.
  unfold turned_down.
  destruct (WebCrawler.json request) as [[body | kind] | e].
  - destruct (WebCrawler.get_or_empty (WebCrawler.body_start_urls body));
      [| discriminate].
    intros H. injection H as <-. left. eexists. split; [reflexivity | auto].
  - intros H. injection H as <-. right. eexists. reflexivity.
  - intros H. injection H as <-. left. eexists. split; [reflexivity |].
    right. exists e. reflexivity.
Qed.

(** X14.  In web-crawler.py the second test of the globals can never
    succeed: [crawl] never answers with the resources-not-initialized
    error.  When [init_resources] returns, both globals are set; when it
    raises, the exception leaves the handler. *)
Theorem web_crawler_never_answers_not_initialized
    (h : Host) (env : SubmitEnv) (request : WebCrawler.Request) (s : Main.State) :
  snd (WebCrawler.crawl h env request s) <>
  Returned (WebCrawler.error "Server resources are not initialized. Please ensure the server started correctly.").
Proof.
  destruct (web_crawl_cases h env request s)
    as [(e & -> & _) | (p & m & s1 & _ & _ & _ & ->)]; [discriminate |].
  unfold WebCrawler.State.
  destruct (crawl_checked_cases h env request p m s1)
    as [(r & Ht & E) | (_ & [(e & E) | [(res & E) | (e & E)]])];
    rewrite E; try discriminate.
  simpl.
  destruct (turned_down_cases request r Ht) as [(msg & -> & Hmsg) | (e & ->)];
    [| discriminate].
  destruct Hmsg as [-> | (e & ->)]; discriminate.
Qed.

(** X15.  A request is turned down before any work when its body is not
    JSON, when the body is a JSON object whose [start_urls] is missing or
    an empty list, and when the body is JSON but not an object.  In these
    cases no shared list is allocated and no job dispatched -- the only
    events the call can add are the constructions of a re-initialisation.
    Unless [init_resources] raised (that exception then leaves the
    handler), the answer is the error dict with the corresponding message
    in the first two cases; in the third, [data.get] is outside any [try]
    and its [AttributeError] leaves the handler. *)
Theorem web_crawler_rejects_before_any_work
    (h : Host) (env : SubmitEnv) (request : WebCrawler.Request) (s : Main.State)
    (r : outcome dict) :
  turned_down request = Some r ->
  (exists evs,
     Main.events (fst (WebCrawler.crawl h env request s)) = Main.events s ++ evs /\
     forallb is_construction evs = true) /\
  (snd (WebCrawler.crawl h env request s) = r \/
   exists e,
     snd (WebCrawler.crawl h env request s) = Raised e /\
     snd (Main.init_resources h (init_env env) s) = Raised e) /\
  (r = Returned (WebCrawler.error "start_urls must be provided.") \/
   (exists e,
      WebCrawler.json request = Raised e /\
      r = Returned (WebCrawler.error ("Invalid JSON payload: " ++ exn_str e)%string)) \/
   (exists kind,
      WebCrawler.json request = Returned (WebCrawler.JsonOther kind) /\
      r = Raised (Exception ("'" ++ WebCrawler.type_name kind
                               ++ "' object has no attribute 'get'")%string))).
Proof.
  intros Htd.
  pose proof (init_resources_events h (init_env env) s) as Hev.
  split; [| split].
  - destruct (web_crawl_cases h env request s)
      as [(e & -> & He) | (p & m & s1 & Hs1 & _ & _ & ->)]; [exact Hev |].
    destruct (crawl_checked_cases h env request p m s1)
      as [(r' & _ & ->) | (Hnone & _)].
    + simpl. subst s1. exact Hev.
    + rewrite Hnone in Htd. discriminate Htd.
  - destruct (web_crawl_cases h env request s)
      as [(e & -> & He) | (p & m & s1 & Hs1 & _ & _ & ->)];
      [right; exists e; auto |].
    destruct (crawl_checked_cases h env request p m s1)
      as [(r' & Hr' & ->) | (Hnone & _)].
    + left. simpl. rewrite Htd in Hr'. injection Hr' as <-. reflexivity.
    + rewrite Hnone in Htd. discriminate Htd.
  - unfold turned_down in Htd.
    destruct (WebCrawler.json request) as [[body | kind] | e].
    + destruct (WebCrawler.get_or_empty (WebCrawler.body_start_urls body));
        [| discriminate].
      injection Htd as <-. left. reflexivity.
    + injection Htd as <-. right. right. exists kind. auto.
    + injection Htd as <-. right. left. exists e. auto.
Qed.

(** X15 on a body that is a JSON list, sent to the started service: the
    [AttributeError] leaves the handler and nothing was done. *)
Lemma web_crawler_rejects_before_any_work_witness :
  (exists evs,
     Main.events (fst (WebCrawler.crawl example_host job_completes
                         request_with_a_list started))
       = Main.events started ++ evs /\
     forallb is_construction evs = true) /\
  (snd (WebCrawler.crawl example_host job_completes request_with_a_list started) =
     Raised (Exception "'list' object has no attribute 'get'") \/
   exists e,
     snd (WebCrawler.crawl example_host job_completes request_with_a_list started)
       = Raised e /\
     snd (Main.init_resources example_host (init_env job_completes) started)
       = Raised e).
Proof.
  destruct (web_crawler_rejects_before_any_work example_host job_completes
              request_with_a_list started
              (Raised (Exception "'list' object has no attribute 'get'"))
              eq_refl) as (H1 & H2 & _).
  split; [exact H1 | exact H2].
Defined.

(** X16.  In web-crawler.py a refresh whose constructors return replaces
    both globals: the new pool and coordinator are built in this call and
    are not the old ones, and each old object whose shutdown call returned
    has been shut down -- the pool with [wait=False, cancel_futures=True]. *)
Theorem web_crawler_refresh_replaces_both
    (h : Host) (senv : ShutdownEnv) (ienv : InitEnv) (s : Main.State) :
  Main.ids_allocated s ->
  ProcessPoolExecutor_raises ienv = None ->
  Manager_raises ienv = None ->
  exists p m s1 d,
    WebCrawler.refresh_resources h senv ienv s = (s1, Returned d) /\
    status d = "refreshed_and_restarted" /\
    Main.executor s1 = Some p /\ Main.manager s1 = Some m /\
    Main.executor s <> Some p /\ Main.manager s <> Some m /\
    constructions s1 = constructions s ++ [PoolConstructed p; ManagerConstructed m] /\
    (forall p0, Main.executor s = Some p0 -> executor_shutdown_raises senv = None ->
                In (ExecutorShutdown p0 false true) (Main.events s1)) /\
    (forall m0, Main.manager s = Some m0 -> manager_shutdown_raises senv = None ->
                In (ManagerShutdown m0) (Main.events s1)).
Proof.
  intros [Hip Him] Hp Hm. destruct s as [ex mg n evs]. simpl in Hip, Him.
  unfold WebCrawler.refresh_resources, WebCrawler.init_resources,
    executor_shutdown, manager_shutdown, Main.init_resources,
    Main.new_ProcessPoolExecutor, Main.new_Manager.
  rewrite Hp, Hm.
  exists (pool_built h n), {| manager_id := S n |}.
  assert (Hnp : ex <> Some (pool_built h n))
    by (intros E; apply Hip in E; simpl in E; lia).
  assert (Hnm : mg <> Some {| manager_id := S n |})
    by (intros E; apply Him in E; simpl in E; lia).
  unfold pool_built in *.
  destruct ex as [p0|]; destruct mg as [m0|];
    destruct (executor_shutdown_raises senv) as [e1|];
    destruct (manager_shutdown_raises senv) as [e2|];
    destruct (version_ge_3_11 h); cbn;
    eexists _, _; (split; [reflexivity |]); simpl;
    (split; [reflexivity |]); (split; [reflexivity |]); (split; [reflexivity |]);
    (split; [exact Hnp |]); (split; [exact Hnm |]);
    unfold constructions; simpl; rewrite ?filter_app; simpl;
    rewrite ?app_nil_r, <- ?app_assoc; simpl;
    (split; [reflexivity |]);
    (split; intros x Ex Es; try discriminate; injection Ex as <-;
     rewrite ?in_app_iff; simpl; auto 10).
Qed.

(** X16 on the started service. *)
Lemma web_crawler_refresh_replaces_both_witness :
  exists p m s1 d,
    WebCrawler.refresh_resources example_host shutdowns_return constructors_return
      started = (s1, Returned d) /\
    status d = "refreshed_and_restarted" /\
    Main.executor s1 = Some p /\ Main.manager s1 = Some m /\
    Main.executor started <> Some p /\ Main.manager started <> Some m /\
    constructions s1 = constructions started ++ [PoolConstructed p; ManagerConstructed m] /\
    (forall p0, Main.executor started = Some p0 ->
                executor_shutdown_raises shutdowns_return = None ->
                In (ExecutorShutdown p0 false true) (Main.events s1)) /\
    (forall m0, Main.manager started = Some m0 ->
                manager_shutdown_raises shutdowns_return = None ->
                In (ManagerShutdown m0) (Main.events s1)).
Proof.
  apply (web_crawler_refresh_replaces_both example_host shutdowns_return
           constructors_return started).
  - split; simpl; intros x Hx; injection Hx as <-; simpl; lia.
  - reflexivity.
  - reflexivity.
Defined.

(** X17.  In web-crawler.py a refresh whose pool construction raises
    answers with the error dict and leaves both globals unset; the next
    crawl then builds the pool and the coordinator itself and, for a
    non-empty [start_urls] and a run that completes, finishes with the
    items of the run. *)
Theorem web_crawler_crawl_heals_a_failed_refresh
    (h : Host) (senv : ShutdownEnv) (ienv : InitEnv) (env : SubmitEnv)
    (u : string) (start_urls allowed_domains : list string) (s : Main.State) (e : exn) :
  ProcessPoolExecutor_raises ienv = Some e ->
  ProcessPoolExecutor_raises (init_env env) = None ->
  Manager_raises (init_env env) = None ->
  list_raises env = None -> worker_fault env = None ->
  CrawlerProcess_raises (scrapy env (u :: start_urls) allowed_domains) = None ->
  crawl_raises (scrapy env (u :: start_urls) allowed_domains) = None ->
  exists s1 s2,
    WebCrawler.refresh_resources h senv ienv s =
      (s1, Returned {| status := "error";
                       message :=
                         Some ("Failed to re-initialize resources: " ++ exn_str e)%string;
                       results := None |}) /\
    Main.executor s1 = None /\ Main.manager s1 = None /\
    WebCrawler.crawl h env
      {| WebCrawler.json :=
           Returned (WebCrawler.JsonObject
                       {| WebCrawler.body_start_urls := Some (u :: start_urls);
                          WebCrawler.body_allowed_domains := Some allowed_domains |}) |} s1 =
      (s2, Returned {| status := "finished"; message := None;
                       results :=
                         Some (map (page_result h)
                                 (responses (scrapy env (u :: start_urls)
                                               allowed_domains))) |}) /\
    Main.both_live s2.
Proof.
  intros Hr Hp Hm El Ew Ec Er.
  pose proof (run_crawler_process_completes h (scrapy env) (u :: start_urls)
                allowed_domains [] Ec Er) as Hrun.
  destruct s as [ex mg n evs].
  unfold WebCrawler.refresh_resources, WebCrawler.crawl, WebCrawler.init_resources,
    WebCrawler.run_crawler, executor_shutdown, manager_shutdown,
    manager_list, run_in_executor, Main.init_resources,
    Main.new_ProcessPoolExecutor, Main.new_Manager.
  rewrite Hr, Hp, Hm, El, Ew.
  destruct ex as [p|]; destruct mg as [m|];
    destruct (executor_shutdown_raises senv);
    destruct (manager_shutdown_raises senv);
    destruct (version_ge_3_11 h);
    cbn -[CrawlerService.run_crawler_process];
    eexists _, _; (split; [reflexivity |]);
    (split; [reflexivity |]); (split; [reflexivity |]);
    cbn -[CrawlerService.run_crawler_process]; rewrite Hrun;
    (split; [reflexivity |]); split; simpl; discriminate.
Qed.

(** X17 on the started service. *)
Lemma web_crawler_crawl_heals_a_failed_refresh_witness :
  exists s1 s2,
    WebCrawler.refresh_resources example_host shutdowns_return
      pool_construction_fails started =
      (s1, Returned {| status := "error";
                       message := Some "Failed to re-initialize resources: OSError: [Errno 12] Cannot allocate memory";
                       results := None |}) /\
    Main.executor s1 = None /\ Main.manager s1 = None /\
    WebCrawler.crawl example_host job_completes request_for_example s1 =
      (s2, Returned {| status := "finished"; message := None;
                       results :=
                         Some (map (page_result example_host)
                                 (responses (scrapy job_completes
                                    ["http://example.test/a"] ["example.test"]))) |}) /\
    Main.both_live s2.
Proof.
  exact (web_crawler_crawl_heals_a_failed_refresh example_host shutdowns_return
           pool_construction_fails job_completes
           "http://example.test/a" [] ["example.test"] started
           (Exception "OSError: [Errno 12] Cannot allocate memory")
           eq_refl eq_refl eq_refl eq_refl eq_refl eq_refl eq_refl).
Defined.

(** X18.  The two crawl handlers shape their dicts differently.  Both
    return either a ["finished"] dict with results and no message, or an
    ["error"] dict with a message; the error dict of [crawl_service]
    always carries an empty ["results"] list, the error dict of
    web-crawler.py's [crawl] never has a ["results"] key. *)
Theorem crawl_dict_shapes
    (h : Host) (env : SubmitEnv) (start_urls allowed_domains : list string)
    (request : WebCrawler.Request) (s : CrawlerService.State) (ws : Main.State)
    (d : dict) :
  (snd (CrawlerService.crawl_service h env start_urls allowed_domains s) = Returned d ->
   (status d = "finished" /\ message d = None /\ results d <> None) \/
   (status d = "error" /\ message d <> None /\ results d = Some [])) /\
  (snd (WebCrawler.crawl h env request ws) = Returned d ->
   (status d = "finished" /\ message d = None /\ results d <> None) \/
   (status d = "error" /\ message d <> None /\ results d = None)).
Proof.
  split.
  - destruct (CrawlerService.executor s) as [p|] eqn:Ep;
      [destruct (CrawlerService.manager s) as [m|] eqn:Em |].
    + rewrite (crawl_service_live h env start_urls allowed_domains s p m Ep Em).
      destruct (list_raises env) as [e|] eqn:El.
      * rewrite (submit_list_raises h env p m _ _ s e El). discriminate.
      * rewrite (submit_dispatches h env p m _ _ s El). simpl.
        intros H. injection H as <-.
        destruct (awaited h env start_urls allowed_domains); simpl;
          [left | right]; repeat split; discriminate.
    + rewrite (crawl_service_unset h env _ _ s (or_intror Em)). simpl.
      destruct (snd (CrawlerService.init_resources h (init_env env) s));
        [intros H; injection H as <-; right; repeat split; discriminate
        | discriminate].
    + rewrite (crawl_service_unset h env _ _ s (or_introl Ep)). simpl.
      destruct (snd (CrawlerService.init_resources h (init_env env) s));
        [intros H; injection H as <-; right; repeat split; discriminate
        | discriminate].
  - destruct (web_crawl_cases h env request ws)
      as [(e & -> & _) | (p & m & s1 & _ & _ & _ & ->)]; [discriminate |].
    unfold WebCrawler.State.
    destruct (crawl_checked_cases h env request p m s1)
      as [(r & Ht & E) | (_ & [(e & E) | [(res & E) | (e & E)]])];
      rewrite E; try discriminate.
    + simpl.
      destruct (turned_down_cases request r Ht) as [(msg & -> & _) | (e & ->)];
        [| discriminate].
      intros H. injection H as <-. right. repeat split; discriminate.
    + intros H. injection H as <-. left. repeat split; discriminate.
    + intros H. injection H as <-. right. repeat split; discriminate.
Qed.

(** X18 on a request without [start_urls], in both handlers. *)
Lemma crawl_dict_shapes_witness :
  (status (WebCrawler.error "start_urls must be provided.") = "finished" /\
   message (WebCrawler.error "start_urls must be provided.") = None /\
   results (WebCrawler.error "start_urls must be provided.") <> None) \/
  (status (WebCrawler.error "start_urls must be provided.") = "error" /\
   message (WebCrawler.error "start_urls must be provided.") <> None /\
   results (WebCrawler.error "start_urls must be provided.") = None).
Proof.
  exact (proj2 (crawl_dict_shapes example_host job_completes [] []
                  request_without_start_urls service_live started
                  (WebCrawler.error "start_urls must be provided."))
           eq_refl).
Defined.


(** ** check2.py *)

(** X19.  The snippet the script prints is never longer than 503
    characters and starts with the first 500 characters of the text; a
    text of at most 500 characters is printed whole, a longer one as its
    first 500 characters followed by three dots. *)
Theorem truncated_html_bounds (first_html_snippet : str) :
  List.length (truncated_html first_html_snippet) <= 503 /\
  firstn 500 (truncated_html first_html_snippet) = firstn 500 first_html_snippet /\
  (List.length first_html_snippet <= 500 ->
   truncated_html first_html_snippet = first_html_snippet) /\
  (500 < List.length first_html_snippet ->
   truncated_html first_html_snippet = firstn 500 first_html_snippet ++ lit "..." /\
   List.length (truncated_html first_html_snippet) = 503).
Proof.
  unfold truncated_html, max_length.
  destruct (500 <? List.length first_html_snippet) eqn:E.
  - apply Nat.ltb_lt in E.
    assert (Hl : List.length (firstn 500 first_html_snippet) = 500)
      by (rewrite length_firstn; lia).
    split; [| split; [| split]].
    + rewrite length_app, Hl. simpl. lia.
    + rewrite firstn_app, Hl, firstn_firstn. simpl. apply app_nil_r.
    + intros H. lia.
    + intros _. split; [reflexivity |]. rewrite length_app, Hl. reflexivity.
  - apply Nat.ltb_ge in E.
    rewrite app_nil_r, (firstn_all2 first_html_snippet E).
    split; [| split; [| split]].
    + lia.
    + apply firstn_all2. exact E.
    + intros _. reflexivity.
    + intros H. lia.
Qed.

(** X19 on the example page. *)
Lemma truncated_html_bounds_witness :
  truncated_html example_html = example_html.
Proof.
  apply (proj1 (proj2 (proj2 (truncated_html_bounds example_html)))).
  apply Nat.leb_le. vm_compute. reflexivity.
Defined.

Lemma post_crawl_message h env request s d :
  snd (CrawlerController.post_crawl h env request s) = Returned d ->
  message d = None.
Proof.
  unfold CrawlerController.post_crawl, CrawlerController.crawl_endpoint, bind.
  destruct (CrawlerService.crawl_service h env (CrawlerModels.start_urls request)
              (CrawlerModels.allowed_domains request) s) as [s' [d' | e]];
    simpl; [| discriminate].
  destruct (CrawlerModels.validate d') as [r | e]; simpl; [| discriminate].
  intros H. injection H as <-. reflexivity.
Qed.

(** X20.  What the test script reports depends on which service it talks
    to.  Against [POST /crawl] of the app, an error report never shows a
    message of the server: it always reads ["No error message provided."].
    Against web-crawler.py's [crawl], every dict that is not ["finished"]
    is reported with the message the handler wrote. *)
Theorem report_shows_server_message_only_for_web_crawler
    (h : Host) (env : SubmitEnv) (request : CrawlerModels.CrawlRequest)
    (s : CrawlerService.State) (wrequest : WebCrawler.Request) (ws : Main.State) :
  (forall msg,
     report (snd (CrawlerController.post_crawl h env request s)) = CrawlError msg ->
     msg = "No error message provided.") /\
  (forall d,
     snd (WebCrawler.crawl h env wrequest ws) = Returned d ->
     status d <> "finished" ->
     exists msg, message d = Some msg /\ report (Returned d) = CrawlError msg).
Proof.
  split.
  - intros msg.
    pose proof (post_crawl_message h env request s) as Hm.
    destruct (snd (CrawlerController.post_crawl h env request s)) as [d | e];
      simpl; [| discriminate].
    rewrite (Hm d eq_refl).
    destruct (String.eqb (status d) "finished"); [discriminate |].
    intros H. injection H as <-. reflexivity.
  - intros d Hd Hs.
    assert (Hshape : status d = "finished" \/ exists msg, message d = Some msg).
    { revert Hd.
      destruct (web_crawl_cases h env wrequest ws)
        as [(e & -> & _) | (p & m & s1 & _ & _ & _ & ->)]; [discriminate |].
      unfold WebCrawler.State.
      destruct (crawl_checked_cases h env wrequest p m s1)
        as [(r & Ht & E) | (_ & [(e & E) | [(res & E) | (e & E)]])];
        rewrite E; try discriminate.
      - simpl.
        destruct (turned_down_cases wrequest r Ht) as [(msg & -> & _) | (e & ->)];
          [| discriminate].
        intros H. injection H as <-. right. eexists. reflexivity.
      - intros H. injection H as <-. left. reflexivity.
      - intros H. injection H as <-. right. eexists. reflexivity. }
    destruct Hshape as [E | [msg Hmsg]]; [contradiction |].
    exists msg. split; [exact Hmsg |].
    simpl. destruct (String.eqb (status d) "finished") eqn:E.
    + apply String.eqb_eq in E. contradiction.
    + rewrite Hmsg. reflexivity.
Qed.

(** X20 on web-crawler.py turning down a request without [start_urls]. *)
Lemma report_shows_server_message_only_for_web_crawler_witness :
  exists msg,
    message (WebCrawler.error "start_urls must be provided.") = Some msg /\
    report (Returned (WebCrawler.error "start_urls must be provided."))
      = CrawlError msg.
Proof.
  apply (proj2 (report_shows_server_message_only_for_web_crawler example_host
                  job_completes example_request service_unset
                  request_without_start_urls started)
           (WebCrawler.error "start_urls must be provided.")).
  - reflexivity.
  - simpl. discriminate.
Defined.
